(** * Provisioning of the Azure VM backup hook files

    A shallow embedding of [devops/setup_application_consistent_backup_opensource.py]
    and the properties of its file-provisioning behaviour.

    The script talks to the operating system through four library calls
    ([os.makedirs], [open(_, 'w')] with [write], [os.chmod]) and [print].
    The embedding threads an explicit [world] (file system, standard output,
    log of the library calls made) through a small state-and-exception monad
    [Py]; everything the script cannot control (the effective user id, the
    umask, operating-system failures such as a read-only file system) is read
    from an [environment].

    What the model takes for granted: standard output can be written
    ([print] does not fail); a file system holds directories and regular
    files (no devices or FIFOs), each under one name (no hard links); a
    new directory gets the requested mode minus the umask (set-group-ID
    inheritance from the parent is left out).  Symbolic links are added
    in [Linked], where the script is embedded a second time over calls
    that follow them. *)

From Stdlib Require Import ZArith Ascii String List.
From stdpp Require Import gmap strings list fin_maps.

Local Open Scope string_scope.
Local Open Scope list_scope.
Local Open Scope Z_scope.
Local Open Scope stdpp_scope.

(** ** Text helpers *)

Module Text.

(** The double quote and the line feed, which a string literal cannot hold. *)
Definition dq : string := String (ascii_of_nat 34) EmptyString.
Definition nl : string := String (ascii_of_nat 10) EmptyString.

(** A triple-quoted Python literal, given line by line: every line of the
    literal ends with a line feed. *)
Fixpoint unlines (ls : list string) : string :=
  match ls with
  | [] => EmptyString
  | l :: ls' => l +:+ nl +:+ unlines ls'
  end.

Definition digit_char (d : Z) : ascii := ascii_of_nat (48 + Z.to_nat d).

(** Digits of [n] in base [b], most significant first. *)
Fixpoint digits_fuel (fuel : nat) (b n : Z) (acc : string) : string :=
  match fuel with
  | O => acc
  | S fuel' =>
      let acc' := String (digit_char (n mod b)) acc in
      if n / b =? 0 then acc' else digits_fuel fuel' b (n / b) acc'
  end.

Definition digits (b n : Z) : string :=
  digits_fuel (S (Z.to_nat (Z.log2 n))) b n EmptyString.

(** Python's [str] of an [int]. *)
Definition str_int (n : Z) : string :=
  if n <? 0 then "-" +:+ digits 10 (- n) else digits 10 n.

(** Python's built-in [oct]. *)
Definition oct (n : Z) : string :=
  if n <? 0 then "-0o" +:+ digits 8 (- n) else "0o" +:+ digits 8 n.

(** Python's [repr] of a [str] (the characters of a string are the code
    points below 256).  The text is put between single quotes, or between
    double quotes when it holds a single quote and no double quote; the
    quote in use and the backslash are escaped with a backslash, tab, line
    feed and carriage return are written [\t], [\n], [\r], and every other
    character that is not printable is written [\xhh]. *)
Definition hex_digit (n : nat) : ascii :=
  ascii_of_nat (if Nat.ltb n 10 then 48 + n else 87 + n)%nat.

(** [str.isprintable] on one code point below 256: the ASCII control
    characters, DEL, the C1 controls, the no-break space and the soft
    hyphen are not printable. *)
Definition printable (n : nat) : bool :=
  (Nat.leb 32 n && Nat.ltb n 127) || (Nat.leb 161 n && negb (Nat.eqb n 173)).

Fixpoint has_char (n : nat) (s : string) : bool :=
  match s with
  | EmptyString => false
  | String c s' => Nat.eqb (nat_of_ascii c) n || has_char n s'
  end.

Definition escape (quote : nat) (c : ascii) : string :=
  let n := nat_of_ascii c in
  let backslash := ascii_of_nat 92 in
  if Nat.eqb n quote || Nat.eqb n 92 then String backslash (String c EmptyString)
  else if Nat.eqb n 9 then String backslash "t"
  else if Nat.eqb n 10 then String backslash "n"
  else if Nat.eqb n 13 then String backslash "r"
  else if printable n then String c EmptyString
  else String backslash
         (String "x" (String (hex_digit (n / 16)) (String (hex_digit (n mod 16)) EmptyString))).

Fixpoint escape_all (quote : nat) (s : string) : string :=
  match s with
  | EmptyString => EmptyString
  | String c s' => escape quote c +:+ escape_all quote s'
  end.

Definition repr (s : string) : string :=
  let quote := if has_char 39 s && negb (has_char 34 s) then 34%nat else 39%nat in
  String (ascii_of_nat quote)
    (escape_all quote s +:+ String (ascii_of_nat quote) EmptyString).

End Text.

Import Text.

(** ** The [stat] permission bits the script uses *)

Module stat.
Definition S_IRUSR : Z := 256.   (* 0o400 *)
Definition S_IWUSR : Z := 128.   (* 0o200 *)
Definition S_IXUSR : Z := 64.    (* 0o100 *)
Definition S_IRWXU : Z := 448.   (* 0o700 *)
End stat.

(** ** File contents embedded in the script *)

Definition PRE_BACKUP_CONTENT : string :=
  unlines
    [ "#!/bin/bash";
      EmptyString;
      "# Define logging function";
      "log_message() {";
      "    echo " +:+ dq +:+ "[$(date '+%Y-%m-%d %H:%M:%S')] $1" +:+ dq +:+ " | sudo tee -a /var/log/azure-backup.log > /dev/null";
      "}";
      EmptyString;
      "# Pause the application before backup";
      "log_message " +:+ dq +:+ "Pre-backup script started - pausing application" +:+ dq;
      EmptyString;
      "# Example: Stop your application service";
      "# Replace 'your-app-service' with your actual service name";
      "SERVICE_NAME=" +:+ dq +:+ "your-app-service" +:+ dq;
      EmptyString;
      "# Check if the service is running before attempting to stop it";
      "if systemctl is-active --quiet $SERVICE_NAME; then";
      "    sudo systemctl stop $SERVICE_NAME";
      "    if [ $? -eq 0 ]; then";
      "        log_message " +:+ dq +:+ "Successfully stopped $SERVICE_NAME" +:+ dq;
      "    else";
      "        log_message " +:+ dq +:+ "WARNING: Failed to stop $SERVICE_NAME" +:+ dq;
      "        # Continue anyway, as we don't want to fail the backup";
      "    fi";
      "else";
      "    log_message " +:+ dq +:+ "$SERVICE_NAME was not running, nothing to stop" +:+ dq;
      "fi";
      EmptyString;
      "# Additional application-specific commands can be added here";
      "# Examples:";
      "# - Stop database connections";
      "# - Flush application caches";
      "# - Quiesce file systems";
      EmptyString;
      "# Flush any filesystem buffers";
      "sync";
      EmptyString;
      "log_message " +:+ dq +:+ "Pre-backup script completed" +:+ dq;
      "exit 0" ].

Definition POST_BACKUP_CONTENT : string :=
  unlines
    [ "#!/bin/bash";
      EmptyString;
      "# Define logging function";
      "log_message() {";
      "    echo " +:+ dq +:+ "[$(date '+%Y-%m-%d %H:%M:%S')] $1" +:+ dq +:+ " | sudo tee -a /var/log/azure-backup.log > /dev/null";
      "}";
      EmptyString;
      "# Resume the application after backup";
      "log_message " +:+ dq +:+ "Post-backup script started - resuming application" +:+ dq;
      EmptyString;
      "# Example: Start your application service";
      "# Replace 'your-app-service' with your actual service name";
      "SERVICE_NAME=" +:+ dq +:+ "your-app-service" +:+ dq;
      EmptyString;
      "# Start the service";
      "sudo systemctl start $SERVICE_NAME";
      "if [ $? -eq 0 ]; then";
      "    log_message " +:+ dq +:+ "Successfully started $SERVICE_NAME" +:+ dq;
      "else";
      "    log_message " +:+ dq +:+ "ERROR: Failed to start $SERVICE_NAME" +:+ dq;
      "    # We don't exit with error as we don't want to mark the backup as failed";
      "    # but this should be investigated";
      "fi";
      EmptyString;
      "# Additional application-specific commands can be added here";
      "# Examples:";
      "# - Restart database connections";
      "# - Reload application configurations";
      "# - Verify application health";
      EmptyString;
      "log_message " +:+ dq +:+ "Post-backup script completed" +:+ dq;
      "exit 0" ].

Definition CONFIG_CONTENT : string :=
  unlines
    [ "{";
      "  " +:+ dq +:+ "pluginName" +:+ dq +:+ ": " +:+ dq +:+ "ScriptRunner" +:+ dq +:+ ",";
      "  " +:+ dq +:+ "preScriptLocation" +:+ dq +:+ ": " +:+ dq +:+ "/etc/azure/pre_backup.sh" +:+ dq +:+ ",";
      "  " +:+ dq +:+ "postScriptLocation" +:+ dq +:+ ": " +:+ dq +:+ "/etc/azure/post_backup.sh" +:+ dq +:+ ",";
      "  " +:+ dq +:+ "preScriptParams" +:+ dq +:+ ": [" +:+ dq +:+ dq +:+ ", " +:+ dq +:+ dq +:+ "],";
      "  " +:+ dq +:+ "postScriptParams" +:+ dq +:+ ": [" +:+ dq +:+ dq +:+ ", " +:+ dq +:+ dq +:+ "],";
      "  " +:+ dq +:+ "preScriptNoOfRetries" +:+ dq +:+ ": 0,";
      "  " +:+ dq +:+ "postScriptNoOfRetries" +:+ dq +:+ ": 0,";
      "  " +:+ dq +:+ "timeoutInSeconds" +:+ dq +:+ ": 30,";
      "  " +:+ dq +:+ "continueBackupOnFailure" +:+ dq +:+ ": true,";
      "  " +:+ dq +:+ "fsFreezeEnabled" +:+ dq +:+ ": true";
      "}" ].


(** ** [posixpath]: the path functions the script relies on *)

Module posixpath.

Definition sep : string := "/".

Definition startswith_sep (s : string) : bool :=
  match s with
  | String c _ => Ascii.eqb c "/"
  | EmptyString => false
  end.

Fixpoint endswith_sep (s : string) : bool :=
  match s with
  | EmptyString => false
  | String c EmptyString => Ascii.eqb c "/"
  | String _ s' => endswith_sep s'
  end.

(** [os.path.join(a, b)]: an absolute [b] replaces [a]; otherwise the two
    are glued with one separator, which is omitted when [a] is empty or
    already ends with one. *)
Definition join (a b : string) : string :=
  if startswith_sep b then b
  else if String.eqb a EmptyString || endswith_sep a then a +:+ b
  else a +:+ sep +:+ b.

(** [s.split('/')] *)
Fixpoint split_sep (s : string) : list string :=
  match s with
  | EmptyString => [EmptyString]
  | String c s' =>
      if Ascii.eqb c "/" then EmptyString :: split_sep s'
      else match split_sep s' with
           | [] => [String c EmptyString]
           | x :: xs => String c x :: xs
           end
  end.

(** The components the kernel walks through when it resolves an absolute
    path name: empty components (doubled or trailing separators) vanish.
    The paths of this program have no [.] or [..] component; symbolic
    links are the matter of [Linked.realpath]. *)
Definition components (name : string) : list string :=
  List.filter (fun c => negb (String.eqb c EmptyString)) (split_sep name).

(** The absolute path name of a list of components. *)
Definition of_components (p : list string) : string :=
  match p with
  | [] => sep
  | _ => String.concat EmptyString (List.map (fun c => sep +:+ c) p)
  end.

End posixpath.

(** ** The operating system as the script sees it *)

Inductive errno :=
  EPERM | ENOENT | EIO | EBADF | EACCES | EEXIST | ENOTDIR | EISDIR | ENOSPC | EROFS
  | ELOOP.

Definition errno_code (e : errno) : Z :=
  match e with
  | EPERM => 1 | ENOENT => 2 | EIO => 5 | EBADF => 9 | EACCES => 13
  | EEXIST => 17 | ENOTDIR => 20 | EISDIR => 21 | ENOSPC => 28 | EROFS => 30
  | ELOOP => 40
  end.

Definition strerror (e : errno) : string :=
  match e with
  | EPERM => "Operation not permitted"
  | ENOENT => "No such file or directory"
  | EIO => "Input/output error"
  | EBADF => "Bad file descriptor"
  | EACCES => "Permission denied"
  | EEXIST => "File exists"
  | ENOTDIR => "Not a directory"
  | EISDIR => "Is a directory"
  | ENOSPC => "No space left on device"
  | EROFS => "Read-only file system"
  | ELOOP => "Too many levels of symbolic links"
  end.

(** The exceptions that occur: [OSError] (with its subclasses, told apart
    by the error number) and [OverflowError] (an integer argument that
    does not fit the C type of a system call) derive from [Exception];
    [SystemExit], raised by [sys.exit], does not. *)
Inductive exn :=
  | OSError (e : errno) (filename : option string)
  | OverflowError (message : string)
  | SystemExit (code : Z).

Definition is_Exception (x : exn) : bool :=
  match x with OSError _ _ | OverflowError _ => true | SystemExit _ => false end.

Definition is_OSError (x : exn) : bool :=
  match x with OSError _ _ => true | OverflowError _ | SystemExit _ => false end.

Definition is_FileExistsError (x : exn) : bool :=
  match x with OSError EEXIST _ => true | _ => false end.

(** [str(e)] *)
Definition str_exn (x : exn) : string :=
  match x with
  | OSError e None => "[Errno " +:+ str_int (errno_code e) +:+ "] " +:+ strerror e
  | OSError e (Some f) =>
      "[Errno " +:+ str_int (errno_code e) +:+ "] " +:+ strerror e +:+ ": " +:+ repr f
  | OverflowError msg => msg
  | SystemExit c => str_int c
  end.

(** The integers that fit a C [int], the type of the mode of [chmod]. *)
Definition c_int (n : Z) : bool := (-2147483648 <=? n) && (n <=? 2147483647).

(** A resolved path: the components from the root, which is [[]]. *)
Abbreviation path := (list string).

Inductive node :=
  | Dir (mode : Z)
  | File (content : string) (mode : Z).

(** The library calls that touch the file system, as the script makes them. *)
Inductive event :=
  | EvMakedirs (name : string)
  | EvOpen (file : string)
  | EvWrite (file : string) (content : string)
  | EvChmod (file : string) (mode : Z).

Record world := World {
  fs : gmap path node;      (* every node but the root, which always is a directory *)
  stdout : list string;     (* one entry per [print] *)
  calls : list event        (* the file-system calls made so far, oldest first *)
}.

Inductive syscall :=
  | SysMkdir (p : path)
  | SysOpen (p : path)
  | SysWrite (p : path)
  | SysChmod (p : path).

(** What the script does not control. [fault] is the operating system's
    verdict on a system call that the shape of the file system would allow
    (permission denied, read-only file system, no space left, ...);
    [short_write] is how many characters reach a file when writing to it
    fails. *)
Record environment := Environment {
  geteuid : option Z;       (* [None]: the platform's [os] has no [geteuid] *)
  umask : Z;
  fault : syscall -> option errno;
  short_write : path -> nat
}.

(** *** State and exceptions *)

Inductive outcome (A : Type) :=
  | Normal (a : A)
  | Raised (x : exn).
Arguments Normal {A} a.
Arguments Raised {A} x.

Definition Py (A : Type) : Type := world -> outcome A * world.

#[global] Instance Py_ret : MRet Py := fun A a w => (Normal a, w).

#[global] Instance Py_bind : MBind Py := fun A B f m w =>
  match m w with
  | (Normal a, w') => f a w'
  | (Raised x, w') => (Raised x, w')
  end.

Definition raise {A} (x : exn) : Py A := fun w => (Raised x, w).

(** [try: body / except <catches> as e: handler e] *)
Definition try_except {A} (body : Py A) (catches : exn -> bool) (handler : exn -> Py A) : Py A :=
  fun w =>
    match body w with
    | (Raised x, w') => if catches x then handler x w' else (Raised x, w')
    | r => r
    end.

Definition get_fs : Py (gmap path node) := fun w => (Normal (fs w), w).

Definition put_fs (f : gmap path node) : Py unit :=
  fun w => (Normal tt, World f (stdout w) (calls w)).

(** [print(s)], on a standard output that can be written. *)
Definition print (s : string) : Py unit :=
  fun w => (Normal tt, World (fs w) (stdout w ++ [s]) (calls w)).

Definition record (e : event) : Py unit :=
  fun w => (Normal tt, World (fs w) (stdout w) (calls w ++ [e])).

Definition sys_exit {A} (code : Z) : Py A := raise (SystemExit code).

(** *** The file system *)

Definition parent (p : path) : path := removelast p.

(** [os.path.exists] and [os.path.isdir] on a resolved path. *)
Definition exists_at (f : gmap path node) (p : path) : bool :=
  match p with
  | [] => true
  | _ => match f !! p with Some _ => true | None => false end
  end.

Definition isdir_at (f : gmap path node) (p : path) : bool :=
  match p with
  | [] => true
  | _ => match f !! p with Some (Dir _) => true | _ => false end
  end.

(** Every node hangs below a directory. *)
Definition wf_fs (f : gmap path node) : Prop :=
  forall p n, f !! p = Some n -> p <> [] /\ isdir_at f (parent p) = true.

(** The error of a system call that names a path whose parent is not a
    directory. *)
Definition no_parent (f : gmap path node) (p : path) : errno :=
  if exists_at f (parent p) then ENOTDIR else ENOENT.

(** A handle on a file opened for writing. *)
Record handle := Handle { h_name : string; h_path : path }.

Section Calls.

Variable env : environment.

(** New nodes get the requested mode with the umask bits cleared. *)
Definition apply_umask (mode : Z) : Z := Z.land mode (Z.lnot (umask env)).

(** [os.mkdir(name, mode)], the system call: one directory, whose parent
    must be a directory. *)
Definition mkdir (p : path) (mode : Z) : Py unit :=
  let name := Some (posixpath.of_components p) in
  f ← get_fs;
  match p with
  | [] => raise (OSError EEXIST name)
  | _ =>
      match f !! p with
      | Some _ => raise (OSError EEXIST name)
      | None =>
          if isdir_at f (parent p) then
            match fault env (SysMkdir p) with
            | Some e => raise (OSError e name)
            | None => put_fs (<[p := Dir (apply_umask mode)]> f)
            end
          else raise (OSError (no_parent f p) name)
      end
  end.

(** [os.makedirs(name, exist_ok=True)] on a resolved path given leaf first.
    As in the library: when the parent does not exist it is made first (a
    [FileExistsError] from that is ignored), then the directory itself is
    made, and any [OSError] of that last step is swallowed when the
    directory is there after all. *)
Fixpoint makedirs_from (rname : list string) : Py unit :=
  let name := rev rname in
  match rname with
  | [] => mret tt
  | _ :: rhead =>
      f ← get_fs;
      if exists_at f (rev rhead) then mret tt
      else try_except (makedirs_from rhead) is_FileExistsError (fun _ => mret tt)
  end;;
  try_except (mkdir name 511) is_OSError
    (fun e => f ← get_fs; if isdir_at f name then mret tt else raise e).

Definition os_makedirs (name : string) : Py unit :=
  record (EvMakedirs name);;
  makedirs_from (rev (posixpath.components name)).

(** [open(file, 'w')]: creates the file, or empties the one that is there
    (keeping its mode). *)
Definition open_w (file : string) : Py handle :=
  let p := posixpath.components file in
  record (EvOpen file);;
  f ← get_fs;
  match p with
  | [] => raise (OSError EISDIR (Some file))
  | _ =>
      match f !! p with
      | Some (Dir _) => raise (OSError EISDIR (Some file))
      | Some (File _ m) =>
          match fault env (SysOpen p) with
          | Some e => raise (OSError e (Some file))
          | None => put_fs (<[p := File EmptyString m]> f);; mret (Handle file p)
          end
      | None =>
          if isdir_at f (parent p) then
            match fault env (SysOpen p) with
            | Some e => raise (OSError e (Some file))
            | None =>
                put_fs (<[p := File EmptyString (apply_umask 438)]> f);;
                mret (Handle file p)
            end
          else raise (OSError (no_parent f p) (Some file))
      end
  end.

(** [h.write(content)] followed by closing [h]: all of [content] reaches
    the file, or, when the operating system fails, only a prefix of it. *)
Definition write_close (h : handle) (content : string) : Py unit :=
  let p := h_path h in
  record (EvWrite (h_name h) content);;
  f ← get_fs;
  match f !! p with
  | Some (File _ m) =>
      match fault env (SysWrite p) with
      | Some e =>
          put_fs (<[p := File (String.substring 0 (short_write env p) content) m]> f);;
          raise (OSError e None)
      | None => put_fs (<[p := File content m]> f)
      end
  | _ => raise (OSError EBADF None)
  end.

(** [os.chmod(file, mode)]: a mode that does not fit a C [int] is turned
    down before the system is asked; the system keeps the twelve
    permission bits of the mode. *)
Definition os_chmod (file : string) (mode : Z) : Py unit :=
  let p := posixpath.components file in
  record (EvChmod file mode);;
  (if c_int mode then mret tt
   else raise (OverflowError "Python int too large to convert to C int"));;
  f ← get_fs;
  match p with
  | [] => mret tt
  | _ =>
      match f !! p with
      | Some n =>
          match fault env (SysChmod p) with
          | Some e => raise (OSError e (Some file))
          | None =>
              put_fs (<[p := match n with
                             | Dir _ => Dir (Z.land mode 4095)
                             | File c _ => File c (Z.land mode 4095)
                             end]> f)
          end
      | None => raise (OSError (no_parent f p) (Some file))
      end
  end.

(** ** The script *)

Definition create_directory_if_not_exists (directory : string) : Py bool :=
  returned ←
    try_except
      (os_makedirs directory;;
       print ("Directory " +:+ directory +:+ " created or already exists.");;
       mret None)
      is_Exception
      (fun e =>
         print ("Error creating directory " +:+ directory +:+ ": " +:+ str_exn e);;
         mret (Some false));
  match returned with
  | Some b => mret b
  | None => mret true
  end.

Definition create_file_with_content_and_permissions
    (file_path content : string) (permissions : Z) : Py bool :=
  try_except
    (f ← open_w file_path;
     write_close f content;;
     print ("Created " +:+ file_path);;
     os_chmod file_path permissions;;
     print ("Set permissions " +:+ oct permissions +:+ " on " +:+ file_path);;
     mret true)
    is_Exception
    (fun e =>
       print ("Error creating " +:+ file_path +:+ ": " +:+ str_exn e);;
       mret false).

Definition azure_dir : string := "/etc/azure".
Definition pre_backup_dest : string := posixpath.join azure_dir "pre_backup.sh".
Definition post_backup_dest : string := posixpath.join azure_dir "post_backup.sh".
Definition config_dest : string :=
  posixpath.join azure_dir "VMSnapshotScriptPluginConfig.json".

(** [hasattr(os, 'geteuid') and os.geteuid() != 0] *)
Definition not_root : bool :=
  match geteuid env with
  | Some uid => negb (uid =? 0)
  | None => false
  end.

Definition main : Py unit :=
  (if not_root then
     print "This script must be run as root (sudo).";;
     print "Usage: sudo python3 setup_application_consistent_backup.py";;
     sys_exit 1
   else mret tt);;
  print "Starting Azure VM application-consistent backup setup...";;
  print EmptyString;;
  print "IMPORTANT: Before using this script, please:";;
  print "1. Replace 'your-app-service' in the scripts with your actual service name";;
  print "2. Add any additional application-specific commands as needed";;
  print "3. Test the scripts manually before relying on them for backups";;
  print EmptyString;;
  ok ← create_directory_if_not_exists azure_dir;
  (if negb ok then sys_exit 1 else mret tt);;
  let success := true in
  r ← create_file_with_content_and_permissions
        config_dest CONFIG_CONTENT (Z.lor stat.S_IRUSR stat.S_IWUSR);
  let success := if negb r then false else success in
  r ← create_file_with_content_and_permissions
        pre_backup_dest PRE_BACKUP_CONTENT stat.S_IRWXU;
  let success := if negb r then false else success in
  r ← create_file_with_content_and_permissions
        post_backup_dest POST_BACKUP_CONTENT stat.S_IRWXU;
  let success := if negb r then false else success in
  if success then
    print (nl +:+ "Setup completed successfully!");;
    print "Files created in /etc/azure:";;
    print ("  - " +:+ config_dest +:+ " (permissions: 600)");;
    print ("  - " +:+ pre_backup_dest +:+ " (permissions: 700)");;
    print ("  - " +:+ post_backup_dest +:+ " (permissions: 700)");;
    print (nl +:+ "Next steps:");;
    print "1. Edit the script files to replace 'your-app-service' with your actual service";;
    print "2. Add any additional application-specific commands";;
    print "3. Test the scripts manually: sudo /etc/azure/pre_backup.sh && sudo /etc/azure/post_backup.sh";;
    print "4. Monitor backup logs: /var/log/azure/Microsoft.Azure.RecoveryServices.VMSnapshotLinux/extension.log";;
    print (nl +:+ "Azure VM application-consistent backup is now configured.")
  else
    print (nl +:+ "Setup failed. Please check the errors above.");;
    sys_exit 1.

(** Running the script as a process: the exit status is 0 when [main]
    returns, the argument of [sys.exit] when that ends it, and 1 when an
    exception escapes. *)
Definition run (w : world) : Z * world :=
  match main w with
  | (Normal _, w') => (0, w')
  | (Raised (SystemExit code), w') => (code, w')
  | (Raised (OSError _ _), w') => (1, w')
  | (Raised (OverflowError _), w') => (1, w')
  end.

End Calls.

(** ** Symbolic links

    The calls above take a path name for the path it spells.  The kernel
    also follows symbolic links: [open] and [chmod] act on what a link
    points to, [mkdir] follows the links on the way to the parent and
    refuses when the last component is a link, [os.path.exists] and
    [os.path.isdir] look at what a link points to.  The script makes and
    removes no link, so the links of a system are a table that no call
    changes: it maps the path of a link to its target, an absolute path
    without [.] and [..].  The files and directories are the [fs] of the
    world, each at the path it has once every link is followed. *)

Module Linked.

Section Calls.

Variable lk : gmap path path.
Variable env : environment.

(** Path resolution: the components are walked from the root; a prefix
    that is a link is replaced by its target and the walk starts again,
    which [follow] does. *)
Fixpoint walk_with (follow : path -> option path) (seen todo : path) : option path :=
  match todo with
  | [] => Some seen
  | c :: todo' =>
      match lk !! (seen ++ [c]) with
      | None => walk_with follow (seen ++ [c]) todo'
      | Some target => follow (target ++ todo')
      end
  end.

(** At most [fuel] links are followed. *)
Fixpoint walk (fuel : nat) (p : path) : option path :=
  walk_with (match fuel with O => fun _ => None | S fuel' => walk fuel' end) [] p.

(** The kernel gives up ([ELOOP]) after 40 links. *)
Definition realpath (p : path) : option path := walk 40 p.

(** [os.path.exists] and [os.path.isdir] *)
Definition path_exists (f : gmap path node) (p : path) : bool :=
  match realpath p with Some q => exists_at f q | None => false end.

Definition path_isdir (f : gmap path node) (p : path) : bool :=
  match realpath p with Some q => isdir_at f q | None => false end.

(** [os.mkdir(name, mode)]: the links on the way to the parent are
    followed; the last component is not, a link there is in the way. *)
Definition mkdir (p : path) (mode : Z) : Py unit :=
  let name := Some (posixpath.of_components p) in
  f ← get_fs;
  match last p with
  | None => raise (OSError EEXIST name)
  | Some c =>
      match realpath (parent p) with
      | None => raise (OSError ELOOP name)
      | Some d =>
          let q := d ++ [c] in
          match lk !! q with
          | Some _ => raise (OSError EEXIST name)
          | None =>
              match f !! q with
              | Some _ => raise (OSError EEXIST name)
              | None =>
                  if isdir_at f d then
                    match fault env (SysMkdir q) with
                    | Some e => raise (OSError e name)
                    | None => put_fs (<[q := Dir (apply_umask env mode)]> f)
                    end
                  else raise (OSError (if exists_at f d then ENOTDIR else ENOENT) name)
              end
          end
      end
  end.

(** [os.makedirs(name, exist_ok=True)] *)
Fixpoint makedirs_from (rname : list string) : Py unit :=
  let name := rev rname in
  match rname with
  | [] => mret tt
  | _ :: rhead =>
      f ← get_fs;
      if path_exists f (rev rhead) then mret tt
      else try_except (makedirs_from rhead) is_FileExistsError (fun _ => mret tt)
  end;;
  try_except (mkdir name 511) is_OSError
    (fun e => f ← get_fs; if path_isdir f name then mret tt else raise e).

Definition os_makedirs (name : string) : Py unit :=
  record (EvMakedirs name);;
  makedirs_from (rev (posixpath.components name)).

(** [open(file, 'w')]: the file opened is the one the name leads to; a
    link to a file that is not there makes the file at the target. *)
Definition open_w (file : string) : Py handle :=
  record (EvOpen file);;
  f ← get_fs;
  match realpath (posixpath.components file) with
  | None => raise (OSError ELOOP (Some file))
  | Some p =>
      match p with
      | [] => raise (OSError EISDIR (Some file))
      | _ =>
          match f !! p with
          | Some (Dir _) => raise (OSError EISDIR (Some file))
          | Some (File _ m) =>
              match fault env (SysOpen p) with
              | Some e => raise (OSError e (Some file))
              | None => put_fs (<[p := File EmptyString m]> f);; mret (Handle file p)
              end
          | None =>
              if isdir_at f (parent p) then
                match fault env (SysOpen p) with
                | Some e => raise (OSError e (Some file))
                | None =>
                    put_fs (<[p := File EmptyString (apply_umask env 438)]> f);;
                    mret (Handle file p)
                end
              else raise (OSError (no_parent f p) (Some file))
          end
      end
  end.

(** [os.chmod(file, mode)], which follows links. *)
Definition os_chmod (file : string) (mode : Z) : Py unit :=
  record (EvChmod file mode);;
  (if c_int mode then mret tt
   else raise (OverflowError "Python int too large to convert to C int"));;
  f ← get_fs;
  match realpath (posixpath.components file) with
  | None => raise (OSError ELOOP (Some file))
  | Some p =>
      match p with
      | [] => mret tt
      | _ =>
          match f !! p with
          | Some n =>
              match fault env (SysChmod p) with
              | Some e => raise (OSError e (Some file))
              | None =>
                  put_fs (<[p := match n with
                                 | Dir _ => Dir (Z.land mode 4095)
                                 | File c _ => File c (Z.land mode 4095)
                                 end]> f)
              end
          | None => raise (OSError (no_parent f p) (Some file))
          end
      end
  end.

(** The script, word for word, over these calls. *)

Definition create_directory_if_not_exists (directory : string) : Py bool :=
  returned ←
    try_except
      (os_makedirs directory;;
       print ("Directory " +:+ directory +:+ " created or already exists.");;
       mret None)
      is_Exception
      (fun e =>
         print ("Error creating directory " +:+ directory +:+ ": " +:+ str_exn e);;
         mret (Some false));
  match returned with
  | Some b => mret b
  | None => mret true
  end.

Definition create_file_with_content_and_permissions
    (file_path content : string) (permissions : Z) : Py bool :=
  try_except
    (f ← open_w file_path;
     write_close env f content;;
     print ("Created " +:+ file_path);;
     os_chmod file_path permissions;;
     print ("Set permissions " +:+ oct permissions +:+ " on " +:+ file_path);;
     mret true)
    is_Exception
    (fun e =>
       print ("Error creating " +:+ file_path +:+ ": " +:+ str_exn e);;
       mret false).

Definition main : Py unit :=
  (if not_root env then
     print "This script must be run as root (sudo).";;
     print "Usage: sudo python3 setup_application_consistent_backup.py";;
     sys_exit 1
   else mret tt);;
  print "Starting Azure VM application-consistent backup setup...";;
  print EmptyString;;
  print "IMPORTANT: Before using this script, please:";;
  print "1. Replace 'your-app-service' in the scripts with your actual service name";;
  print "2. Add any additional application-specific commands as needed";;
  print "3. Test the scripts manually before relying on them for backups";;
  print EmptyString;;
  ok ← create_directory_if_not_exists azure_dir;
  (if negb ok then sys_exit 1 else mret tt);;
  let success := true in
  r ← create_file_with_content_and_permissions
        config_dest CONFIG_CONTENT (Z.lor stat.S_IRUSR stat.S_IWUSR);
  let success := if negb r then false else success in
  r ← create_file_with_content_and_permissions
        pre_backup_dest PRE_BACKUP_CONTENT stat.S_IRWXU;
  let success := if negb r then false else success in
  r ← create_file_with_content_and_permissions
        post_backup_dest POST_BACKUP_CONTENT stat.S_IRWXU;
  let success := if negb r then false else success in
  if success then
    print (nl +:+ "Setup completed successfully!");;
    print "Files created in /etc/azure:";;
    print ("  - " +:+ config_dest +:+ " (permissions: 600)");;
    print ("  - " +:+ pre_backup_dest +:+ " (permissions: 700)");;
    print ("  - " +:+ post_backup_dest +:+ " (permissions: 700)");;
    print (nl +:+ "Next steps:");;
    print "1. Edit the script files to replace 'your-app-service' with your actual service";;
    print "2. Add any additional application-specific commands";;
    print "3. Test the scripts manually: sudo /etc/azure/pre_backup.sh && sudo /etc/azure/post_backup.sh";;
    print "4. Monitor backup logs: /var/log/azure/Microsoft.Azure.RecoveryServices.VMSnapshotLinux/extension.log";;
    print (nl +:+ "Azure VM application-consistent backup is now configured.")
  else
    print (nl +:+ "Setup failed. Please check the errors above.");;
    sys_exit 1.

Definition run (w : world) : Z * world :=
  match main w with
  | (Normal _, w') => (0, w')
  | (Raised (SystemExit code), w') => (code, w')
  | (Raised (OSError _ _), w') => (1, w')
  | (Raised (OverflowError _), w') => (1, w')
  end.

End Calls.

End Linked.

(** ** JSON syntax (RFC 8259)

    The script embeds its configuration as text; what that text denotes is
    settled by a reader for the JSON grammar. The reader accepts the whole
    grammar except [\u] escapes, which it rejects. *)

Module JSON.

#[local] Set Warnings "-register-all".

Inductive json :=
  | JNull
  | JBool (b : bool)
  | JInt (n : Z)                 (* a number with neither fraction nor exponent *)
  | JReal (lexeme : string)      (* any other number, as written *)
  | JString (s : string)
  | JArray (items : list json)
  | JObject (members : list (string * json)).

Definition is_char (c : ascii) (n : nat) : bool := Nat.eqb (nat_of_ascii c) n.

Definition is_ws (c : ascii) : bool :=
  is_char c 32 || is_char c 9 || is_char c 10 || is_char c 13.

Definition is_digit (c : ascii) : bool :=
  Nat.leb 48 (nat_of_ascii c) && Nat.leb (nat_of_ascii c) 57.

Fixpoint skip_ws (s : string) : string :=
  match s with
  | String c s' => if is_ws c then skip_ws s' else s
  | EmptyString => s
  end.

(** The characters of a string literal after its opening quote, and the
    text after the closing quote. *)
Fixpoint string_body (s : string) : option (string * string) :=
  match s with
  | EmptyString => None
  | String c s' =>
      if is_char c 34 then Some (EmptyString, s')
      else if is_char c 92 then
        match s' with
        | String e s'' =>
            let unescaped :=
              if is_char e 34 then Some e            (* quote *)
              else if is_char e 92 then Some e       (* backslash *)
              else if is_char e 47 then Some e       (* slash *)
              else if is_char e 98 then Some (ascii_of_nat 8)
              else if is_char e 102 then Some (ascii_of_nat 12)
              else if is_char e 110 then Some (ascii_of_nat 10)
              else if is_char e 114 then Some (ascii_of_nat 13)
              else if is_char e 116 then Some (ascii_of_nat 9)
              else None in
            match unescaped, string_body s'' with
            | Some u, Some (body, rest) => Some (String u body, rest)
            | _, _ => None
            end
        | EmptyString => None
        end
      else if Nat.ltb (nat_of_ascii c) 32 then None
      else
        match string_body s' with
        | Some (body, rest) => Some (String c body, rest)
        | None => None
        end
  end.

(** The longest prefix of digits, and the rest. *)
Fixpoint span_digits (s : string) : string * string :=
  match s with
  | String c s' =>
      if is_digit c then let '(ds, rest) := span_digits s' in (String c ds, rest)
      else (EmptyString, s)
  | EmptyString => (EmptyString, s)
  end.

Fixpoint value_of_digits (acc : Z) (ds : string) : Z :=
  match ds with
  | String c ds' => value_of_digits (10 * acc + Z.of_nat (nat_of_ascii c - 48)) ds'
  | EmptyString => acc
  end.

(** The integer part of a number: a single 0, or digits not starting with 0. *)
Definition int_part (s : string) : option (string * string) :=
  match span_digits s with
  | (EmptyString, _) => None
  | (String c ds, rest) =>
      if is_char c 48 && negb (String.eqb ds EmptyString) then None
      else Some (String c ds, rest)
  end.

Definition frac_part (s : string) : option (string * string) :=
  match s with
  | String c s' =>
      if is_char c 46 then
        match span_digits s' with
        | (EmptyString, _) => None
        | (ds, rest) => Some (String c ds, rest)
        end
      else Some (EmptyString, s)
  | EmptyString => Some (EmptyString, s)
  end.

Definition exp_part (s : string) : option (string * string) :=
  match s with
  | String c s' =>
      if is_char c 101 || is_char c 69 then
        let '(sign, s'') :=
          match s' with
          | String g t => if is_char g 43 || is_char g 45
                          then (String g EmptyString, t) else (EmptyString, s')
          | EmptyString => (EmptyString, s')
          end in
        match span_digits s'' with
        | (EmptyString, _) => None
        | (ds, rest) => Some (String c (sign +:+ ds), rest)
        end
      else Some (EmptyString, s)
  | EmptyString => Some (EmptyString, s)
  end.

Definition number (s : string) : option (json * string) :=
  let '(neg, s1) :=
    match s with
    | String c t => if is_char c 45 then (true, t) else (false, s)
    | EmptyString => (false, s)
    end in
  match int_part s1 with
  | None => None
  | Some (ds, s2) =>
      match frac_part s2 with
      | None => None
      | Some (fr, s3) =>
          match exp_part s3 with
          | None => None
          | Some (ex, s4) =>
              if String.eqb fr EmptyString && String.eqb ex EmptyString
              then Some (JInt (if neg then - value_of_digits 0 ds else value_of_digits 0 ds), s4)
              else Some (JReal ((if neg then "-" else EmptyString) +:+ ds +:+ fr +:+ ex), s4)
          end
      end
  end.

(** [literal word s]: [s] without its prefix [word]. *)
Fixpoint literal (word s : string) : option string :=
  match word, s with
  | EmptyString, _ => Some s
  | String a word', String b s' => if Ascii.eqb a b then literal word' s' else None
  | String _ _, EmptyString => None
  end.

(** A value, possibly surrounded by white space. [depth] bounds the nesting
    of arrays and objects; [width] bounds the number of items of one array
    or object. *)
Fixpoint value (depth : nat) (width : nat) (s : string) : option (json * string) :=
  match depth with
  | O => None
  | S depth' =>
      (* the items of an array after its opening bracket, the first item
         already known to be there *)
      let fix items (n : nat) (s : string) : option (list json * string) :=
        match n with
        | O => None
        | S n' =>
            match value depth' width s with
            | None => None
            | Some (v, rest) =>
                match rest with
                | String c rest' =>
                    if is_char c 93 then Some ([v], rest')
                    else if is_char c 44 then
                      match items n' rest' with
                      | Some (vs, rest'') => Some (v :: vs, rest'')
                      | None => None
                      end
                    else None
                | EmptyString => None
                end
            end
        end in
      let fix members (n : nat) (s : string) : option (list (string * json) * string) :=
        match n with
        | O => None
        | S n' =>
            match skip_ws s with
            | String q s1 =>
                if is_char q 34 then
                  match string_body s1 with
                  | None => None
                  | Some (k, s2) =>
                      match skip_ws s2 with
                      | String colon s3 =>
                          if is_char colon 58 then
                            match value depth' width s3 with
                            | None => None
                            | Some (v, rest) =>
                                match rest with
                                | String c rest' =>
                                    if is_char c 125 then Some ([(k, v)], rest')
                                    else if is_char c 44 then
                                      match members n' rest' with
                                      | Some (ms, rest'') => Some ((k, v) :: ms, rest'')
                                      | None => None
                                      end
                                    else None
                                | EmptyString => None
                                end
                            end
                          else None
                      | EmptyString => None
                      end
                  end
                else None
            | EmptyString => None
            end
        end in
      let after (r : option (json * string)) :=
        match r with
        | Some (v, rest) => Some (v, skip_ws rest)
        | None => None
        end in
      match skip_ws s with
      | EmptyString => None
      | String c s' =>
          if is_char c 123 then
            match skip_ws s' with
            | String c' s'' =>
                if is_char c' 125 then after (Some (JObject [], s''))
                else match members width s' with
                     | Some (ms, rest) => after (Some (JObject ms, rest))
                     | None => None
                     end
            | EmptyString => None
            end
          else if is_char c 91 then
            match skip_ws s' with
            | String c' s'' =>
                if is_char c' 93 then after (Some (JArray [], s''))
                else match items width s' with
                     | Some (vs, rest) => after (Some (JArray vs, rest))
                     | None => None
                     end
            | EmptyString => None
            end
          else if is_char c 34 then
            match string_body s' with
            | Some (t, rest) => after (Some (JString t, rest))
            | None => None
            end
          else if is_char c 116 then
            match literal "true" (String c s') with
            | Some rest => after (Some (JBool true, rest))
            | None => None
            end
          else if is_char c 102 then
            match literal "false" (String c s') with
            | Some rest => after (Some (JBool false, rest))
            | None => None
            end
          else if is_char c 110 then
            match literal "null" (String c s') with
            | Some rest => after (Some (JNull, rest))
            | None => None
            end
          else after (number (String c s'))
      end
  end.

(** A JSON text is one value and nothing else. *)
Definition parse (s : string) : option json :=
  match value (S (String.length s)) (S (String.length s)) s with
  | Some (v, EmptyString) => Some v
  | _ => None
  end.

(** The shape of a configuration: which fields, of which kind. *)
Inductive kind := KString | KInteger | KBoolean | KStrings (n : nat).

Definition is_string (v : json) : bool :=
  match v with JString _ => true | _ => false end.

Definition has_kind (k : kind) (v : json) : bool :=
  match k, v with
  | KString, JString _ => true
  | KInteger, JInt _ => true
  | KBoolean, JBool _ => true
  | KStrings n, JArray items => Nat.eqb (length items) n && forallb is_string items
  | _, _ => false
  end.

Fixpoint field (name : string) (ms : list (string * json)) : option json :=
  match ms with
  | [] => None
  | (k, v) :: ms' => if String.eqb k name then Some v else field name ms'
  end.

(** An object conforms when it has as many members as the shape has fields
    and every field of the shape is a member of the right kind (so, the
    field names of a shape being distinct, it has exactly those fields). *)
Definition conforms (shape : list (string * kind)) (v : json) : bool :=
  match v with
  | JObject ms =>
      Nat.eqb (length ms) (length shape) &&
      forallb (fun '(name, k) =>
                 match field name ms with
                 | Some x => has_kind k x
                 | None => false
                 end) shape
  | _ => false
  end.

End JSON.

(** The shape the backup agent's plug-in configuration has. *)
Definition config_shape : list (string * JSON.kind) :=
  [ ("pluginName", JSON.KString);
    ("preScriptLocation", JSON.KString);
    ("postScriptLocation", JSON.KString);
    ("preScriptParams", JSON.KStrings 2);
    ("postScriptParams", JSON.KStrings 2);
    ("preScriptNoOfRetries", JSON.KInteger);
    ("postScriptNoOfRetries", JSON.KInteger);
    ("timeoutInSeconds", JSON.KInteger);
    ("continueBackupOnFailure", JSON.KBoolean);
    ("fsFreezeEnabled", JSON.KBoolean) ].

(** * Properties *)

(** ** Worlds and environments used to state them *)

Definition say (lines : list string) (w : world) : world :=
  World (fs w) (stdout w ++ lines) (calls w).

Definition privilege_lines : list string :=
  [ "This script must be run as root (sudo).";
    "Usage: sudo python3 setup_application_consistent_backup.py" ].

Definition banner : list string :=
  [ "Starting Azure VM application-consistent backup setup...";
    EmptyString;
    "IMPORTANT: Before using this script, please:";
    "1. Replace 'your-app-service' in the scripts with your actual service name";
    "2. Add any additional application-specific commands as needed";
    "3. Test the scripts manually before relying on them for backups";
    EmptyString ].

Definition elevated (env : environment) : Prop := geteuid env = Some 0.

(** No operating-system failure beyond what the shape of the file system
    causes. *)
Definition calm (env : environment) : Prop := forall s, fault env s = None.

Definition p_etc : path := ["etc"].
Definition p_azure : path := ["etc"; "azure"].
Definition p_config : path := ["etc"; "azure"; "VMSnapshotScriptPluginConfig.json"].
Definition p_pre : path := ["etc"; "azure"; "pre_backup.sh"].
Definition p_post : path := ["etc"; "azure"; "post_backup.sh"].

(** The calls of one complete attempt at an artifact; an attempt that fails
    stops after the call that failed. *)
Definition full_attempt (file content : string) (mode : Z) : list event :=
  [EvOpen file; EvWrite file content; EvChmod file mode].

Definition attempt (file content : string) (mode : Z) (evs : list event) : Prop :=
  exists k, (k < 3)%nat /\ evs = take (S k) (full_attempt file content mode).

Definition success_lines : list string :=
  [ nl +:+ "Setup completed successfully!";
    "Files created in /etc/azure:";
    "  - " +:+ config_dest +:+ " (permissions: 600)";
    "  - " +:+ pre_backup_dest +:+ " (permissions: 700)";
    "  - " +:+ post_backup_dest +:+ " (permissions: 700)";
    nl +:+ "Next steps:";
    "1. Edit the script files to replace 'your-app-service' with your actual service";
    "2. Add any additional application-specific commands";
    "3. Test the scripts manually: sudo /etc/azure/pre_backup.sh && sudo /etc/azure/post_backup.sh";
    "4. Monitor backup logs: /var/log/azure/Microsoft.Azure.RecoveryServices.VMSnapshotLinux/extension.log";
    nl +:+ "Azure VM application-consistent backup is now configured." ].

Definition failure_lines : list string :=
  [ nl +:+ "Setup failed. Please check the errors above." ].

(** The permission bits of the two kinds of artifact, as [main] writes them. *)
Definition mode_config : Z := Z.lor stat.S_IRUSR stat.S_IWUSR.
Definition mode_script : Z := stat.S_IRWXU.

(** The mode a file has once it is open for writing: its old mode, or the
    creation mode when it is new; [None] when the shape of the file system
    does not let the file be opened. *)
Definition open_mode (env : environment) (f : gmap path node) (p : path) : option Z :=
  match p with
  | [] => None
  | _ =>
      match f !! p with
      | Some (File _ m) => Some m
      | Some (Dir _) => None
      | None => if isdir_at f (parent p) then Some (apply_umask env 438) else None
      end
  end.

Definition error_line (file : string) (x : exn) : string :=
  "Error creating " +:+ file +:+ ": " +:+ str_exn x.

(** The four ways [create_file_with_content_and_permissions] ends: the
    open fails; the write fails; the [chmod] fails (the mode is no C [int],
    or the system refuses); all three succeed. *)
Inductive artifact_outcome (env : environment) (file content : string) (perms : Z)
    (w : world) : bool -> world -> Prop :=
  | open_failed x :
      open_mode env (fs w) (posixpath.components file) = None \/
      fault env (SysOpen (posixpath.components file)) <> None ->
      artifact_outcome env file content perms w false
        (World (fs w) (stdout w ++ [error_line file x]) (calls w ++ [EvOpen file]))
  | write_failed x m :
      open_mode env (fs w) (posixpath.components file) = Some m ->
      fault env (SysOpen (posixpath.components file)) = None ->
      fault env (SysWrite (posixpath.components file)) <> None ->
      artifact_outcome env file content perms w false
        (World
           (<[posixpath.components file :=
                File (String.substring 0 (short_write env (posixpath.components file)) content) m]>
              (fs w))
           (stdout w ++ [error_line file x])
           (calls w ++ [EvOpen file; EvWrite file content]))
  | chmod_failed x m :
      open_mode env (fs w) (posixpath.components file) = Some m ->
      fault env (SysOpen (posixpath.components file)) = None ->
      fault env (SysWrite (posixpath.components file)) = None ->
      c_int perms = false \/ fault env (SysChmod (posixpath.components file)) <> None ->
      artifact_outcome env file content perms w false
        (World
           (<[posixpath.components file := File content m]> (fs w))
           (stdout w ++ ["Created " +:+ file; error_line file x])
           (calls w ++ full_attempt file content perms))
  | provisioned m :
      open_mode env (fs w) (posixpath.components file) = Some m ->
      fault env (SysOpen (posixpath.components file)) = None ->
      fault env (SysWrite (posixpath.components file)) = None ->
      c_int perms = true ->
      fault env (SysChmod (posixpath.components file)) = None ->
      artifact_outcome env file content perms w true
        (World
           (<[posixpath.components file := File content (Z.land perms 4095)]> (fs w))
           (stdout w ++
              ["Created " +:+ file; "Set permissions " +:+ oct perms +:+ " on " +:+ file])
           (calls w ++ full_attempt file content perms)).

(** The calls of one attempt at an artifact on the file system [f]: it
    stops at the [open] when the path cannot be opened or the system
    refuses, at the [write] when the system fails there, and reaches the
    [chmod] otherwise. *)
Definition attempt_calls (env : environment) (f : gmap path node)
    (file content : string) (perms : Z) : list event :=
  let p := posixpath.components file in
  match open_mode env f p, fault env (SysOpen p) with
  | Some _, None =>
      match fault env (SysWrite p) with
      | Some _ => [EvOpen file; EvWrite file content]
      | None => full_attempt file content perms
      end
  | _, _ => [EvOpen file]
  end.

(** The operating system refuses none of the calls on the three artifacts. *)
Definition unhindered (env : environment) : Prop :=
  forall p, p = p_config \/ p = p_pre \/ p = p_post ->
    fault env (SysOpen p) = None /\ fault env (SysWrite p) = None /\
    fault env (SysChmod p) = None.


(** The directory [os.makedirs] makes. *)
Definition new_dir (env : environment) : node := Dir (apply_umask env 511).

(** The line the directory step prints. *)
Definition dir_line (b : bool) (x : exn) : string :=
  if b then "Directory " +:+ azure_dir +:+ " created or already exists."
  else "Error creating directory " +:+ azure_dir +:+ ": " +:+ str_exn x.

(** The same environment, seen by a process whose effective user is root. *)
Definition as_root (env : environment) : environment :=
  Environment (Some 0) (umask env) (fault env) (short_write env).

(** The state a fully successful run leaves. *)
Definition provisioned_state (f : gmap path node) : Prop :=
  isdir_at f p_azure = true /\ exists_at f p_etc = true /\
  f !! p_config = Some (File CONFIG_CONTENT 384) /\
  f !! p_pre = Some (File PRE_BACKUP_CONTENT 448) /\
  f !! p_post = Some (File POST_BACKUP_CONTENT 448).

(** ** Notions used for the further properties *)

(** A canonical absolute path name: it is the name of its own components
    (so it starts with one separator, has no doubled or trailing one) and
    none of them is [.] or [..]. For such names the path resolution of
    this model is the kernel's. *)
Definition canonical (name : string) : Prop :=
  posixpath.of_components (posixpath.components name) = name /\
  ~ In "." (posixpath.components name) /\
  ~ In ".." (posixpath.components name).

(** [f'] is [f] with, at most, directories added at prefixes of [p]. *)
Definition only_adds_dirs (env : environment) (p : path) (f f' : gmap path node) : Prop :=
  forall q, f' !! q = f !! q \/
    (f !! q = None /\ f' !! q = Some (new_dir env) /\ q <> [] /\ q `prefix_of` p).

(** The last step of [os.makedirs]: make the directory itself, and put up
    with any [OSError] when it is there. *)
Definition mkdir_exist_ok (env : environment) (name : path) : Py unit :=
  try_except (mkdir env name 511) is_OSError
    (fun e => f ← get_fs; if isdir_at f name then mret tt else raise e).

Definition created_line (directory : string) : string :=
  "Directory " +:+ directory +:+ " created or already exists.".

Definition dir_error_line (directory : string) (x : exn) : string :=
  "Error creating directory " +:+ directory +:+ ": " +:+ str_exn x.



(** The last line of a successful run. *)
Definition configured_line : string :=
  nl +:+ "Azure VM application-consistent backup is now configured.".

(** [f'] has every path of [f], and every directory of [f] unchanged. *)
Definition keeps_paths_and_dirs (f f' : gmap path node) : Prop :=
  (forall q, is_Some (f !! q) -> is_Some (f' !! q)) /\
  (forall q md, f !! q = Some (Dir md) -> f' !! q = Some (Dir md)).

(** ** Concrete environments and worlds *)

(** An operating system that never fails, with the usual umask 0o022. *)
Definition quiet (uid : option Z) : environment :=
  Environment uid 18 (fun _ => None) (fun _ => O).

Definition env_root : environment := quiet (Some 0).
Definition env_user : environment := quiet (Some 1000).

(** Root on a system whose [chmod] on the pre-hook script is refused. *)
Definition env_chmod_refused : environment :=
  Environment (Some 0) 18
    (fun s => match s with
              | SysChmod p => if bool_decide (p = p_pre) then Some EPERM else None
              | _ => None
              end)
    (fun _ => O).

(** Root on a system whose file systems are mounted read-only. *)
Definition env_read_only : environment :=
  Environment (Some 0) 18 (fun _ => Some EROFS) (fun _ => O).

(** Root on a system whose disk fills up while the pre-hook script is
    being written: nothing of it reaches the file. *)
Definition env_disk_full : environment :=
  Environment (Some 0) 18
    (fun s => match s with
              | SysWrite p => if bool_decide (p = p_pre) then Some ENOSPC else None
              | _ => None
              end)
    (fun _ => O).

Definition w_empty : world := World ∅ [] [].

(** A system with [/etc] and nothing below it. *)
Definition w_etc : world := World {[ p_etc := Dir 493 ]} [] [].

(** A system where [/etc] is a regular file. *)
Definition w_etc_file : world := World {[ p_etc := File EmptyString 420 ]} [] [].

(** A system where [/etc/azure] is a regular file. *)
Definition w_blocked : world :=
  World (<[p_azure := File "occupied" 420]> {[ p_etc := Dir 493 ]}) [] [].

(** A system where [/etc/azure] is there, empty. *)
Definition w_azure : world :=
  World (<[p_azure := Dir 493]> {[ p_etc := Dir 493 ]}) [] [].





(** A system where [/etc/azure] is a symbolic link to the directory
    [/srv/azure], and one where it is a link to itself. *)
Definition w_srv : world :=
  World (<[ ["srv"; "azure"] := Dir 493 ]> (<[ ["srv"] := Dir 493 ]> {[ p_etc := Dir 493 ]}))
    [] [].

Definition azure_linked : gmap path path := {[ p_azure := ["srv"; "azure"] ]}.

Definition azure_looping : gmap path path := {[ p_azure := p_azure ]}.


(** ** The definitions at work *)

Example oct_600 : oct (Z.lor stat.S_IRUSR stat.S_IWUSR) = "0o600".
Proof. reflexivity. Qed.

Example oct_700 : oct stat.S_IRWXU = "0o700".
Proof. reflexivity. Qed.

Example str_int_samples : (str_int 0, str_int 17, str_int 100) = ("0", "17", "100").
Proof. reflexivity. Qed.

(** Python's [repr] picks the quotes by what the text holds. *)
Example repr_samples :
  repr "/etc/azure" = "'/etc/azure'" /\
  repr "it's" = dq +:+ "it's" +:+ dq /\
  repr ("a'b" +:+ dq) = "'a\'b" +:+ dq +:+ "'" /\
  repr ("a" +:+ nl +:+ "\") = "'a\n\\'" /\
  repr (String (ascii_of_nat 127) (String (ascii_of_nat 233) EmptyString)) =
    "'\x7f" +:+ String (ascii_of_nat 233) "'".
Proof. repeat split. Qed.

Example destinations :
  (config_dest, pre_backup_dest, post_backup_dest) =
  ("/etc/azure/VMSnapshotScriptPluginConfig.json",
   "/etc/azure/pre_backup.sh", "/etc/azure/post_backup.sh").
Proof. reflexivity. Qed.

Example join_absolute : posixpath.join "/etc/azure" "/tmp/x" = "/tmp/x".
Proof. reflexivity. Qed.

Example join_trailing_sep : posixpath.join "/etc/azure/" "x" = "/etc/azure/x".
Proof. reflexivity. Qed.

Example components_azure : posixpath.components "//etc/azure/" = p_azure.
Proof. reflexivity. Qed.

Example render_azure : posixpath.of_components p_azure = azure_dir.
Proof. reflexivity. Qed.

Example json_rejects_trailing_comma : JSON.parse "[1,]" = None.
Proof. reflexivity. Qed.

Example json_rejects_leading_zero : JSON.parse "01" = None.
Proof. reflexivity. Qed.

Example json_nested :
  JSON.parse " [1, -2.5e3, {}, [ ], null, false] " =
  Some (JSON.JArray [JSON.JInt 1; JSON.JReal "-2.5e3"; JSON.JObject []; JSON.JArray [];
                     JSON.JNull; JSON.JBool false]).
Proof. reflexivity. Qed.

(** A root run on an empty system: three files, two directories. *)
Example run_on_empty_system :
  (run env_root w_empty).1 = 0 /\
  map_to_list (fs (run env_root w_empty).2) =
    [ (p_config, File CONFIG_CONTENT 384); (p_post, File POST_BACKUP_CONTENT 448);
      (p_pre, File PRE_BACKUP_CONTENT 448); (p_azure, Dir 493); (p_etc, Dir 493) ].
Proof. split; vm_compute; reflexivity. Qed.

(** An ordinary user is turned away. *)
Example run_as_user : run env_user w_etc = (1, World (fs w_etc) privilege_lines []).
Proof. vm_compute. reflexivity. Qed.

(** [/etc/azure] is a file: the run stops after the directory step. *)
Example run_blocked :
  (run env_root w_blocked).1 = 1 /\
  fs (run env_root w_blocked).2 = fs w_blocked /\
  calls (run env_root w_blocked).2 = [EvMakedirs "/etc/azure"] /\
  last (stdout (run env_root w_blocked).2) =
    Some "Error creating directory /etc/azure: [Errno 17] File exists: '/etc/azure'".
Proof. split; [|split; [|split]]; vm_compute; reflexivity. Qed.

(** The [chmod] of the pre-hook script is refused: the script is written
    all the same, the post-hook script is still provisioned, the run fails. *)
Example run_chmod_refused :
  (run env_chmod_refused w_etc).1 = 1 /\
  fs (run env_chmod_refused w_etc).2 !! p_pre = Some (File PRE_BACKUP_CONTENT 420) /\
  fs (run env_chmod_refused w_etc).2 !! p_post = Some (File POST_BACKUP_CONTENT 448) /\
  stdout (run env_chmod_refused w_etc).2 !! 11%nat =
    Some "Error creating /etc/azure/pre_backup.sh: [Errno 1] Operation not permitted: '/etc/azure/pre_backup.sh'".
Proof. split; [|split; [|split]]; vm_compute; reflexivity. Qed.

(** The calls of that run, in the order they were made: the attempt at the
    pre-hook script is complete, its [chmod] being the call that failed. *)
Example calls_chmod_refused :
  calls (run env_chmod_refused w_etc).2 =
    [ EvMakedirs "/etc/azure";
      EvOpen config_dest; EvWrite config_dest CONFIG_CONTENT; EvChmod config_dest 384;
      EvOpen pre_backup_dest; EvWrite pre_backup_dest PRE_BACKUP_CONTENT;
      EvChmod pre_backup_dest 448;
      EvOpen post_backup_dest; EvWrite post_backup_dest POST_BACKUP_CONTENT;
      EvChmod post_backup_dest 448 ].
Proof. vm_compute. reflexivity. Qed.

(** The disk fills up while the pre-hook script is written: no [chmod] of
    it is made, the post-hook script is attempted all the same. *)
Example calls_disk_full :
  (run env_disk_full w_etc).1 = 1 /\
  calls (run env_disk_full w_etc).2 =
    [ EvMakedirs "/etc/azure";
      EvOpen config_dest; EvWrite config_dest CONFIG_CONTENT; EvChmod config_dest 384;
      EvOpen pre_backup_dest; EvWrite pre_backup_dest PRE_BACKUP_CONTENT;
      EvOpen post_backup_dest; EvWrite post_backup_dest POST_BACKUP_CONTENT;
      EvChmod post_backup_dest 448 ].
Proof. split; vm_compute; reflexivity. Qed.

(** A mode that is no C [int]: the file is written, the [chmod] raises. *)
Example chmod_overflow :
  create_file_with_content_and_permissions env_root pre_backup_dest "x" 4294967296 w_azure =
    (Normal false,
     World (<[p_pre := File "x" 420]> (fs w_azure))
       [ "Created /etc/azure/pre_backup.sh";
         "Error creating /etc/azure/pre_backup.sh: Python int too large to convert to C int" ]
       [ EvOpen pre_backup_dest; EvWrite pre_backup_dest "x";
         EvChmod pre_backup_dest 4294967296 ]).
Proof. vm_compute. reflexivity. Qed.

(** Through a link: with [/etc/azure] a symbolic link to [/srv/azure] the
    three files are made in [/srv/azure]. *)
Example run_into_linked_directory :
  (Linked.run azure_linked env_root w_srv).1 = 0 /\
  map_to_list (fs (Linked.run azure_linked env_root w_srv).2) =
    map_to_list
      (<[ ["srv"; "azure"; "post_backup.sh"] := File POST_BACKUP_CONTENT 448 ]>
         (<[ ["srv"; "azure"; "pre_backup.sh"] := File PRE_BACKUP_CONTENT 448 ]>
            (<[ ["srv"; "azure"; "VMSnapshotScriptPluginConfig.json"] :=
                  File CONFIG_CONTENT 384 ]> (fs w_srv)))).
Proof. split; vm_compute; reflexivity. Qed.

(** A link that leads back to itself is in the way of the directory and
    is no directory: the run stops with 1 and nothing is written. *)
Example run_link_loop :
  (Linked.run azure_looping env_root w_etc).1 = 1 /\
  fs (Linked.run azure_looping env_root w_etc).2 = fs w_etc /\
  calls (Linked.run azure_looping env_root w_etc).2 = [EvMakedirs "/etc/azure"] /\
  last (stdout (Linked.run azure_looping env_root w_etc).2) =
    Some "Error creating directory /etc/azure: [Errno 17] File exists: '/etc/azure'".
Proof. split; [|split; [|split]]; vm_compute; reflexivity. Qed.

(** Where [os] has no [geteuid] the run on an empty system provisions. *)
Example run_without_geteuid :
  run (quiet None) w_empty = run (as_root (quiet None)) w_empty /\
  (run (quiet None) w_empty).1 = 0 /\
  fs (run (quiet None) w_empty).2 !! p_config = Some (File CONFIG_CONTENT 384).
Proof. split; [reflexivity|]. split; vm_compute; reflexivity. Qed.

Ltac py_unfold :=
  unfold mbind, mret, Py_bind, Py_ret, try_except, raise, sys_exit,
    get_fs, put_fs, print, record, say in *.

Ltac py_simpl := py_unfold; cbn [fs stdout calls fst snd h_path h_name] in *.

(** The equations of [Py] that let a computation be run step by step. *)
Lemma bind_ret {A B} (a : A) (k : A -> Py B) w : (mret a ≫= k) w = k a w.
Proof. reflexivity. Qed.

Lemma bind_print {B} s (k : unit -> Py B) w : (print s ≫= k) w = k tt (say [s] w).
Proof. reflexivity. Qed.

Lemma bind_exit {A B} code (k : A -> Py B) w :
  (sys_exit code ≫= k) w = (Raised (SystemExit code), w).
Proof. reflexivity. Qed.

Lemma bind_normal {A B} (m : Py A) (k : A -> Py B) w a w' :
  m w = (Normal a, w') -> (m ≫= k) w = k a w'.
Proof. intros H. unfold mbind, Py_bind. by rewrite H. Qed.

Lemma bind_assoc {A B C} (m : Py A) (f : A -> Py B) (g : B -> Py C) w :
  ((m ≫= f) ≫= g) w = (m ≫= fun a => f a ≫= g) w.
Proof. unfold mbind, Py_bind. by destruct (m w) as [[a|x] w']. Qed.

Lemma print_say s w : print s w = (Normal tt, say [s] w).
Proof. reflexivity. Qed.

Lemma say_say l1 l2 w : say l2 (say l1 w) = say (l1 ++ l2) w.
Proof. unfold say. cbn [fs stdout calls]. by rewrite app_assoc. Qed.

Ltac py_steps :=
  repeat first
    [ rewrite bind_assoc | rewrite bind_print | rewrite bind_ret | rewrite bind_exit | rewrite print_say
    | rewrite say_say | progress cbv beta ].

(** ** Well-formed file systems *)

Lemma parent_ne (p : path) : p <> [] -> parent p <> p.
Proof.
  intros Hp Heq. apply (f_equal (@length string)) in Heq.
  unfold parent in Heq. rewrite removelast_firstn_len, length_take in Heq.
  destruct p; [done|]. simpl in Heq. lia.
Qed.

Lemma isdir_at_insert_ne f p q n :
  p <> q -> isdir_at (<[p := n]> f) q = isdir_at f q.
Proof.
  intros Hne. unfold isdir_at. destruct q; [done|]. by rewrite lookup_insert_ne.
Qed.

(** Putting a node below a directory keeps the file system well formed, as
    long as a directory is not replaced by a file. *)
Lemma wf_fs_insert f p n :
  wf_fs f -> p <> [] -> isdir_at f (parent p) = true ->
  (forall m, f !! p = Some (Dir m) -> exists m', n = Dir m') ->
  wf_fs (<[p := n]> f).
Proof.
  intros Hwf Hp Hpar Hkind q n' Hq.
  destruct (decide (p = q)) as [<-|Hne].
  - split; [done|]. rewrite isdir_at_insert_ne; [done|]. intros Heq.
    by apply (parent_ne p).
  - rewrite lookup_insert_ne in Hq by done.
    destruct (Hwf q n' Hq) as [Hq0 Hd]. split; [done|].
    destruct (decide (p = parent q)) as [Heq|Hne'].
    + rewrite <- Heq in *. unfold isdir_at in *. destruct p; [done|].
      rewrite lookup_insert_eq.
      match type of Hd with
      | match ?t with _ => _ end = _ => destruct t as [[m|c m]|] eqn:Hl; try done
      end.
      destruct (Hkind m eq_refl) as [m' ->]. done.
    + by rewrite isdir_at_insert_ne.
Qed.

(** ** One artifact *)

(** One step of a case analysis on what the operating system answers:
    reduce, look a path up in a map just updated, or split on the next
    lookup or verdict the computation inspects. *)
Ltac os_step :=
  first
    [ progress cbv beta iota
    | rewrite lookup_insert_eq
    | rewrite lookup_insert_ne by discriminate
    | progress cbn [fs stdout calls h_path h_name is_OSError is_Exception]
    | match goal with
      | H : ?t = _ |- context [match ?t with _ => _ end] => rewrite H
      | |- context [match ?t with _ => _ end] =>
          lazymatch type of t with
          | option node => destruct t as [[?|? ?]|] eqn:?
          | option errno => destruct t as [?|] eqn:?
          | bool => destruct t eqn:?
          end
      end ].

Section Artifact.

Variable env : environment.

Lemma create_file_spec file content perms w :
  exists b w',
    create_file_with_content_and_permissions env file content perms w = (Normal b, w') /\
    artifact_outcome env file content perms w b w'.
Proof.
  destruct w as [f out cs].
  unfold create_file_with_content_and_permissions, open_w, write_close, os_chmod.
  py_simpl.
  pose proof (open_failed env file content perms (World f out cs)) as HA.
  pose proof (write_failed env file content perms (World f out cs)) as HB.
  pose proof (chmod_failed env file content perms (World f out cs)) as HC.
  pose proof (provisioned env file content perms (World f out cs)) as HD.
  unfold open_mode, error_line, full_attempt in *. cbn [fs stdout calls] in *.
  generalize dependent (posixpath.components file). intros p HA HB HC HD.
  destruct p as [|c0 p0] eqn:Hp.
  { eexists _, _; split; [reflexivity|]. apply HA. by left. }
  rewrite <- Hp in *.
  assert (Hcons : forall (A : Type) (a b : A), match p with [] => a | _ :: _ => b end = b)
    by (intros; by rewrite Hp).
  rewrite ?Hcons in *. clear Hp Hcons.
  repeat os_step.
  all: eexists _, _; (split; [reflexivity|]).
  all: cbn [fs stdout calls]; rewrite ?insert_insert_eq, <- ?app_assoc; cbn [app].
  all: first [ eapply HA | eapply HB | eapply HC | eapply HD ].
  all: repeat match goal with
              | H : ?t = _ |- context [fault env ?s] => rewrite H
              | H : ?t = _ |- context [match ?t' with _ => _ end] =>
                  unify t t'; change t' with t; rewrite H
              | H : ?t = _ |- context [if ?t' then _ else _] =>
                  unify t t'; change t' with t; rewrite H
              end.
  all: try reflexivity; try discriminate.
  all: first [ by left | by right ].
Qed.

Lemma create_file_inv file content perms w b w' :
  create_file_with_content_and_permissions env file content perms w = (Normal b, w') ->
  artifact_outcome env file content perms w b w'.
Proof.
  intros H. destruct (create_file_spec file content perms w) as (b0 & w0 & Heq & Hout).
  rewrite Heq in H. by injection H as <- <-.
Qed.

(** An artifact touches no other path. *)
Lemma artifact_frame file content perms w b w' q :
  artifact_outcome env file content perms w b w' ->
  q <> posixpath.components file -> fs w' !! q = fs w !! q.
Proof.
  intros H Hq. destruct H; cbn [fs]; rewrite ?lookup_insert_ne by done; reflexivity.
Qed.

(** The calls of an artifact are an attempt at it. *)
Lemma artifact_calls file content perms w b w' :
  artifact_outcome env file content perms w b w' ->
  exists evs, calls w' = calls w ++ evs /\ attempt file content perms evs /\
    (b = true -> evs = full_attempt file content perms).
Proof.
  intros H. destruct H; cbn [calls]; eexists; (split; [reflexivity|]); split;
    try discriminate; try reflexivity.
  - exists 0%nat. split; [lia | reflexivity].
  - exists 1%nat. split; [lia | reflexivity].
  - exists 2%nat. split; [lia | reflexivity].
  - exists 2%nat. split; [lia | reflexivity].
Qed.

Lemma artifact_stdout file content perms w b w' :
  artifact_outcome env file content perms w b w' ->
  exists lines, stdout w' = stdout w ++ lines /\ lines <> [].
Proof.
  intros H. destruct H; cbn [stdout]; eexists; (split; [reflexivity|]); discriminate.
Qed.

(** What success means for the file system. *)
Lemma artifact_success file content perms w w' :
  artifact_outcome env file content perms w true w' ->
  fs w' = <[posixpath.components file := File content (Z.land perms 4095)]> (fs w).
Proof. intros H. inversion H; subst. reflexivity. Qed.


Lemma open_mode_isdir f p m :
  wf_fs f -> open_mode env f p = Some m -> p <> [] /\ isdir_at f (parent p) = true.
Proof.
  unfold open_mode. intros Hwf H. destruct p as [|c p]; [done|]. split; [done|].
  match type of H with
  | match ?t with _ => _ end = _ => destruct t as [[md|ct md]|] eqn:Hl; [done| |]
  end.
  - by destruct (Hwf _ _ Hl).
  - by destruct (isdir_at f (parent (c :: p))).
Qed.

Lemma open_mode_not_dir f p m md :
  open_mode env f p = Some m -> f !! p <> Some (Dir md).
Proof.
  unfold open_mode. intros H Hl. destruct p; [done|]. by rewrite Hl in H.
Qed.

Lemma artifact_wf file content perms w b w' :
  artifact_outcome env file content perms w b w' -> wf_fs (fs w) -> wf_fs (fs w').
Proof.
  intros H Hwf. destruct H; cbn [fs]; try assumption.
  all: destruct (open_mode_isdir _ _ _ Hwf ltac:(eassumption)) as [Hne Hd].
  all: apply wf_fs_insert; try assumption.
  all: intros md Hl; exfalso; eapply open_mode_not_dir; eassumption.
Qed.

End Artifact.


Section Directory.

Variable env : environment.

Ltac dir_unfold :=
  unfold create_directory_if_not_exists, os_makedirs;
  change (posixpath.components azure_dir) with p_azure;
  change (rev p_azure) with ["azure"; "etc"];
  unfold makedirs_from, mkdir, exists_at, isdir_at, no_parent; cbn [rev app parent removelast];
  py_simpl.

(** The same for the directory step, whose lookups are settled before
    any test on them is made. *)
Ltac dir_step :=
  first
    [ progress cbv beta iota
    | rewrite lookup_insert_eq
    | rewrite lookup_insert_ne by discriminate
    | progress cbn [fs stdout calls is_OSError is_Exception]
    | match goal with
      | H : ?t = _ |- context [match ?t with _ => _ end] => rewrite H
      | |- context [match ?t with _ => _ end] =>
          lazymatch type of t with
          | option node => destruct t as [[?|? ?]|] eqn:?
          | option errno => destruct t as [?|] eqn:?
          end
      | |- context [if is_FileExistsError ?x then _ else _] =>
          destruct (is_FileExistsError x) eqn:?
      end ].

Ltac dir_cases := dir_unfold; repeat dir_step.

(** Case analysis on a run of the directory step whose result is [(Normal b, w')]:
    the property to prove is set aside while the cases are split. *)
Ltac dir_inversion w b w' :=
  destruct w as [f out cs];
  let H := fresh in
  let Q := fresh "Q" in
  intros H; pattern b, w';
  match goal with |- ?P b w' => set (Q := P) end;
  revert H; dir_cases;
  intros [= <- <-]; subst Q; cbv beta; cbn [fs stdout calls].

Ltac lookups :=
  unfold p_etc, p_azure, new_dir in *;
  repeat first [ rewrite lookup_insert_eq | rewrite lookup_insert_ne by congruence ].

(** The directory step never raises, makes one [os.makedirs] call and
    prints one line. *)
Lemma dir_returns w :
  exists b w' x, create_directory_if_not_exists env azure_dir w = (Normal b, w') /\
    calls w' = calls w ++ [EvMakedirs azure_dir] /\
    stdout w' = stdout w ++ [dir_line b x].
Proof.
  destruct w as [f out cs]. dir_cases.
  all: eexists _, _, _; (split; [reflexivity|]); cbn [fs stdout calls]; unfold dir_line.
  all: split; reflexivity.
  Unshelve. all: exact (SystemExit 0).
Qed.

(** It touches nothing but [/etc] and [/etc/azure], and those only by
    making a directory where nothing was. *)
Lemma dir_frame w b w' :
  create_directory_if_not_exists env azure_dir w = (Normal b, w') ->
  (forall q, q <> p_etc -> q <> p_azure -> fs w' !! q = fs w !! q) /\
  (forall q, q = p_etc \/ q = p_azure ->
     fs w' !! q = fs w !! q \/ (fs w !! q = None /\ fs w' !! q = Some (new_dir env))).
Proof.
  dir_inversion w b w'.
  all: split; [ intros q H1 H2; lookups; reflexivity |].
  all: intros q [-> | ->]; lookups; first [ by left | right; split; [assumption|reflexivity] ].
Qed.

(** When it reports success the directory is there; when it reports
    failure, [/etc/azure] is as it was. *)
Lemma dir_result w b w' :
  create_directory_if_not_exists env azure_dir w = (Normal b, w') ->
  (b = true -> isdir_at (fs w') p_azure = true) /\
  (b = false -> fs w' !! p_azure = fs w !! p_azure).
Proof.
  dir_inversion w b w'.
  all: split; intros Hb; try discriminate Hb.
  all: unfold isdir_at; lookups; try reflexivity.
  all: match goal with H : ?t = Some (Dir _) |- context [match ?t' with _ => _ end] =>
         change t' with t; rewrite H; reflexivity end.
Qed.

(** A directory that is there, below an existing parent, is left alone. *)
Lemma dir_existing w b w' :
  create_directory_if_not_exists env azure_dir w = (Normal b, w') ->
  isdir_at (fs w) p_azure = true -> exists_at (fs w) p_etc = true ->
  b = true /\ fs w' = fs w.
Proof.
  dir_inversion w b w'.
  all: unfold isdir_at, exists_at, p_azure, p_etc.
  all: repeat match goal with H : ?t = _ |- context [match ?t' with _ => _ end] =>
         change t' with t; rewrite H end.
  all: try (intros; discriminate).
  all: intros _ _; split; reflexivity.
Qed.

(** With no failure of the operating system, a missing [/etc/azure] is
    made, together with [/etc] when that is missing too. *)
Lemma dir_fresh w b w' :
  create_directory_if_not_exists env azure_dir w = (Normal b, w') ->
  calm env -> fs w !! p_azure = None ->
  (fs w !! p_etc = None ->
     b = true /\ fs w' = <[p_azure := new_dir env]> (<[p_etc := new_dir env]> (fs w))) /\
  (isdir_at (fs w) p_etc = true ->
     b = true /\ fs w' = <[p_azure := new_dir env]> (fs w)).
Proof.
  dir_inversion w b w'.
  all: intros Hcalm Haz.
  all: try match goal with H : fault env ?s = Some _ |- _ => rewrite Hcalm in H; discriminate H end.
  all: try (unfold p_azure in Haz; congruence).
  all: unfold isdir_at, p_etc.
  all: split; intros He; try (split; reflexivity); try congruence.
  all: try match goal with H : ?t = _, H' : match ?t' with _ => _ end = _ |- _ =>
         change t' with t in H'; rewrite H in H'; discriminate H' end.
Qed.

Lemma dir_wf w b w' :
  create_directory_if_not_exists env azure_dir w = (Normal b, w') ->
  wf_fs (fs w) -> wf_fs (fs w').
Proof.
  dir_inversion w b w'.
  all: intros Hwf; try assumption.
  all: repeat (apply wf_fs_insert; [ | discriminate | | ]); try assumption.
  all: try reflexivity.
  all: try (intros; eexists; reflexivity).
  all: cbn [parent removelast]; unfold isdir_at; lookups; try reflexivity.
  all: match goal with H : ?t = Some (Dir _) |- context [match ?t' with _ => _ end] =>
         change t' with t; rewrite H; reflexivity end.
Qed.

End Directory.

(** ** The script as a whole *)

Section Script.

Variable env : environment.

Lemma run_not_root w :
  not_root env = true -> run env w = (1, say privilege_lines w).
Proof.
  intros Hnr. unfold run, main. rewrite Hnr. py_steps. reflexivity.
Qed.

(** How a run that passes the privilege check unfolds: the banner, the
    directory step, and, when that succeeds, the three artifacts in turn,
    each from the world the previous one left. *)
Lemma run_steps w ok w1 :
  not_root env = false ->
  create_directory_if_not_exists env azure_dir (say banner w) = (Normal ok, w1) ->
  (ok = false -> run env w = (1, w1)) /\
  (ok = true -> forall r1 w2 r2 w3 r3 w4,
     create_file_with_content_and_permissions env config_dest CONFIG_CONTENT mode_config w1
       = (Normal r1, w2) ->
     create_file_with_content_and_permissions env pre_backup_dest PRE_BACKUP_CONTENT mode_script w2
       = (Normal r2, w3) ->
     create_file_with_content_and_permissions env post_backup_dest POST_BACKUP_CONTENT mode_script w3
       = (Normal r3, w4) ->
     run env w =
       if r1 && r2 && r3 then (0, say success_lines w4) else (1, say failure_lines w4)).
Proof.
  intros Hnr Hdir. unfold run, main. rewrite Hnr. py_steps.
  cbn [app]. fold banner. rewrite (bind_normal _ _ _ _ _ Hdir).
  split.
  - intros ->. cbn [negb]. py_steps. reflexivity.
  - intros -> r1 w2 r2 w3 r3 w4 H1 H2 H3. cbn [negb]. py_steps.
    unfold mode_config, mode_script in *.
    rewrite (bind_normal _ _ _ _ _ H1). cbv beta zeta.
    rewrite (bind_normal _ _ _ _ _ H2). cbv beta zeta.
    rewrite (bind_normal _ _ _ _ _ H3). cbv beta zeta.
    destruct r1, r2, r3; cbn [negb andb]; py_steps; reflexivity.
Qed.

(** Every run that passes the privilege check, case by case. *)
Lemma run_cases w :
  not_root env = false ->
  exists ok w1 x,
    create_directory_if_not_exists env azure_dir (say banner w) = (Normal ok, w1) /\
    calls w1 = calls w ++ [EvMakedirs azure_dir] /\
    stdout w1 = stdout w ++ banner ++ [dir_line ok x] /\
    ( (ok = false /\ run env w = (1, w1))
    \/ (ok = true /\ exists r1 w2 r2 w3 r3 w4,
         create_file_with_content_and_permissions env config_dest CONFIG_CONTENT mode_config w1
           = (Normal r1, w2) /\
         create_file_with_content_and_permissions env pre_backup_dest PRE_BACKUP_CONTENT mode_script w2
           = (Normal r2, w3) /\
         create_file_with_content_and_permissions env post_backup_dest POST_BACKUP_CONTENT mode_script w3
           = (Normal r3, w4) /\
         run env w =
           if r1 && r2 && r3 then (0, say success_lines w4) else (1, say failure_lines w4)) ).
Proof.
  intros Hnr.
  destruct (dir_returns env (say banner w)) as (ok & w1 & x & Hdir & Hcalls & Hout).
  exists ok, w1, x. split; [exact Hdir|]. split; [exact Hcalls|].
  split; [rewrite Hout; unfold say; cbn [stdout]; by rewrite <- app_assoc|].
  destruct (run_steps w ok w1 Hnr Hdir) as [Hfail Hok].
  destruct ok; [right|left; by split; [|apply Hfail]].
  split; [reflexivity|].
  destruct (create_file_spec env config_dest CONFIG_CONTENT mode_config w1)
    as (r1 & w2 & H1 & _).
  destruct (create_file_spec env pre_backup_dest PRE_BACKUP_CONTENT mode_script w2)
    as (r2 & w3 & H2 & _).
  destruct (create_file_spec env post_backup_dest POST_BACKUP_CONTENT mode_script w3)
    as (r3 & w4 & H3 & _).
  exists r1, w2, r2, w3, r3, w4. repeat (split; [assumption|]).
  by apply (Hok eq_refl r1 w2 r2 w3 r3 w4).
Qed.

End Script.

(** ** More on one artifact *)


Lemma isdir_at_same f f' q : f' !! q = f !! q -> isdir_at f' q = isdir_at f q.
Proof. intros H. unfold isdir_at. destruct q; [done|]. by rewrite H. Qed.

(** An artifact whose own three system calls are not refused, whose mode
    fits a C [int], on a path that can be opened, is provisioned. *)
Lemma artifact_unhindered env file content perms w b w' m :
  artifact_outcome env file content perms w b w' ->
  fault env (SysOpen (posixpath.components file)) = None ->
  fault env (SysWrite (posixpath.components file)) = None ->
  fault env (SysChmod (posixpath.components file)) = None ->
  c_int perms = true ->
  open_mode env (fs w) (posixpath.components file) = Some m ->
  b = true.
Proof.
  intros H Ho Hw Hc Hint Hm.
  destruct H as [x [H|H]|x m' _ _ H|x m' _ _ _ [H|H]|]; try reflexivity; congruence.
Qed.

(** What a provisioned artifact tells about the operating system. *)
Lemma artifact_true_unhindered env file content perms w w' :
  artifact_outcome env file content perms w true w' ->
  fault env (SysOpen (posixpath.components file)) = None /\
  fault env (SysWrite (posixpath.components file)) = None /\
  fault env (SysChmod (posixpath.components file)) = None.
Proof. intros H. inversion H; subst. done. Qed.

Lemma open_mode_same env f f' p :
  f' !! p = f !! p -> isdir_at f' (parent p) = isdir_at f (parent p) ->
  open_mode env f' p = open_mode env f p.
Proof. intros H1 H2. unfold open_mode. destruct p; [done|]. by rewrite H1, H2. Qed.

(** The calls of an artifact, exactly. *)
Lemma artifact_calls_exact env file content perms w b w' :
  artifact_outcome env file content perms w b w' ->
  calls w' = calls w ++ attempt_calls env (fs w) file content perms.
Proof.
  intros H. unfold attempt_calls.
  destruct H as [x [H|H]|x m H1 H2 H3|x m H1 H2 H3 _|m H1 H2 H3 _ _]; cbn [calls].
  - by rewrite H.
  - destruct (open_mode env (fs w) (posixpath.components file)); [|done].
    by destruct (fault env (SysOpen (posixpath.components file))).
  - rewrite H1, H2. by destruct (fault env (SysWrite (posixpath.components file))).
  - by rewrite H1, H2, H3.
  - by rewrite H1, H2, H3.
Qed.

(** ** The properties of a run *)

(** The permission bits, in the numbers used below: 0o600 and 0o700. *)
Lemma mode_config_600 : mode_config = 384 /\ oct mode_config = "0o600".
Proof. split; reflexivity. Qed.

Lemma mode_script_700 : mode_script = 448 /\ oct mode_script = "0o700".
Proof. split; reflexivity. Qed.

Lemma elevated_not_root env : elevated env -> not_root env = false.
Proof. unfold elevated, not_root. by intros ->. Qed.

(** C2. When [os.geteuid] returns anything but 0 the run exits with 1;
    the file system is as it was, no file-system call has been made, and
    only the two lines of the privilege error have been printed. *)
Theorem not_elevated_exit_1_no_change env w uid :
  geteuid env = Some uid -> uid <> 0 ->
  exists w', run env w = (1, w') /\
    fs w' = fs w /\ calls w' = calls w /\ stdout w' = stdout w ++ privilege_lines.
Proof.
  intros Huid Hne. exists (say privilege_lines w). split; [|done].
  apply run_not_root. unfold not_root. rewrite Huid.
  by destruct (Z.eqb_spec uid 0).
Qed.

Lemma run_stdout_elevated env w :
  not_root env = false ->
  exists more, stdout (run env w).2 = stdout w ++ banner ++ more.
Proof.
  intros Hnr.
  destruct (run_cases env w Hnr) as (ok & w1 & x & Hdir & Hcalls & Hout & [[-> Hrun]|[-> Hrun]]).
  - rewrite Hrun. cbn [snd]. eauto.
  - destruct Hrun as (r1 & w2 & r2 & w3 & r3 & w4 & H1 & H2 & H3 & Hrun).
    apply create_file_inv in H1, H2, H3.
    destruct (artifact_stdout _ _ _ _ _ _ _ H1) as (l1 & E1 & _).
    destruct (artifact_stdout _ _ _ _ _ _ _ H2) as (l2 & E2 & _).
    destruct (artifact_stdout _ _ _ _ _ _ _ H3) as (l3 & E3 & _).
    rewrite Hrun.
    destruct (r1 && r2 && r3); cbn [snd say stdout]; rewrite E3, E2, E1, Hout;
      rewrite <- !app_assoc; eauto.
Qed.

(** C9.  The run ends with the privilege error exactly when [os.geteuid]
    exists and returns a value other than 0.  Where [os] has no
    [geteuid], no check is made and the run provisions as a root process
    would: after the banner it makes the directory step, stops with 1
    when that fails, and otherwise attempts the three artifacts in turn
    and exits with 0 when all three succeeded, with 1 otherwise. *)
Theorem privilege_check_only_with_geteuid env w :
  ((exists uid, geteuid env = Some uid /\ uid <> 0) <->
     run env w = (1, say privilege_lines w)) /\
  (geteuid env = None ->
     run env w = run (as_root env) w /\
     exists ok w1,
       create_directory_if_not_exists env azure_dir (say banner w) = (Normal ok, w1) /\
       calls w1 = calls w ++ [EvMakedirs azure_dir] /\
       (ok = false -> run env w = (1, w1)) /\
       (ok = true -> exists r1 w2 r2 w3 r3 w4,
          create_file_with_content_and_permissions env config_dest CONFIG_CONTENT 384 w1
            = (Normal r1, w2) /\
          create_file_with_content_and_permissions env pre_backup_dest PRE_BACKUP_CONTENT 448 w2
            = (Normal r2, w3) /\
          create_file_with_content_and_permissions env post_backup_dest POST_BACKUP_CONTENT 448 w3
            = (Normal r3, w4) /\
          run env w =
            if r1 && r2 && r3 then (0, say success_lines w4)
            else (1, say failure_lines w4))).
Proof.
  split; [split|].
  - intros (uid & Huid & Hne). apply run_not_root. unfold not_root. rewrite Huid.
    by destruct (Z.eqb_spec uid 0).
  - intros Hrun. destruct (geteuid env) as [uid|] eqn:Huid.
    + exists uid. split; [done|]. intros ->.
      destruct (run_stdout_elevated env w) as [more Hmore].
      { unfold not_root. by rewrite Huid. }
      rewrite Hrun in Hmore. cbn [snd say stdout] in Hmore.
      apply app_inv_head in Hmore. discriminate Hmore.
    + destruct (run_stdout_elevated env w) as [more Hmore].
      { unfold not_root. by rewrite Huid. }
      rewrite Hrun in Hmore. cbn [snd say stdout] in Hmore.
      apply app_inv_head in Hmore. discriminate Hmore.
  - intros Hnone. split.
    { destruct env as [g u f s]. cbn [geteuid] in Hnone. by subst g. }
    assert (Hnr : not_root env = false) by (unfold not_root; by rewrite Hnone).
    destruct (run_cases env w Hnr) as (ok & w1 & x & Hdir & Hcalls & _ & Hrun).
    exists ok, w1. split; [exact Hdir|]. split; [exact Hcalls|].
    destruct Hrun as [[-> Hrun]|[-> Hrun]].
    + split; [done|]. discriminate.
    + split; [discriminate|]. intros _. exact Hrun.
Qed.

Lemma components_config : posixpath.components config_dest = p_config.
Proof. reflexivity. Qed.
Lemma components_pre : posixpath.components pre_backup_dest = p_pre.
Proof. reflexivity. Qed.
Lemma components_post : posixpath.components post_backup_dest = p_post.
Proof. reflexivity. Qed.

(** What [run_cases] tells once the result of the directory step is known. *)
Lemma run_after_dir env w ok :
  not_root env = false ->
  (create_directory_if_not_exists env azure_dir (say banner w)).1 = Normal ok ->
  let w1 := (create_directory_if_not_exists env azure_dir (say banner w)).2 in
  calls w1 = calls w ++ [EvMakedirs azure_dir] /\
  ( (ok = false /\ run env w = (1, w1))
  \/ (ok = true /\ exists r1 w2 r2 w3 r3 w4,
       create_file_with_content_and_permissions env config_dest CONFIG_CONTENT mode_config w1
         = (Normal r1, w2) /\
       create_file_with_content_and_permissions env pre_backup_dest PRE_BACKUP_CONTENT mode_script w2
         = (Normal r2, w3) /\
       create_file_with_content_and_permissions env post_backup_dest POST_BACKUP_CONTENT mode_script w3
         = (Normal r3, w4) /\
       run env w =
         if r1 && r2 && r3 then (0, say success_lines w4) else (1, say failure_lines w4)) ).
Proof.
  intros Hnr Hok w1. subst w1.
  destruct (run_cases env w Hnr) as (ok' & w1 & x & Hdir & Hcalls & _ & Hrun).
  rewrite Hdir in *. cbn [fst snd] in *. injection Hok as ->. by split.
Qed.

(** The calls of the three artifacts, one attempt after the other. *)
Lemma three_attempts env w1 r1 w2 r2 w3 r3 w4 :
  create_file_with_content_and_permissions env config_dest CONFIG_CONTENT mode_config w1
    = (Normal r1, w2) ->
  create_file_with_content_and_permissions env pre_backup_dest PRE_BACKUP_CONTENT mode_script w2
    = (Normal r2, w3) ->
  create_file_with_content_and_permissions env post_backup_dest POST_BACKUP_CONTENT mode_script w3
    = (Normal r3, w4) ->
  exists e1 e2 e3, calls w4 = calls w1 ++ e1 ++ e2 ++ e3 /\
    attempt config_dest CONFIG_CONTENT 384 e1 /\
    attempt pre_backup_dest PRE_BACKUP_CONTENT 448 e2 /\
    attempt post_backup_dest POST_BACKUP_CONTENT 448 e3.
Proof.
  intros H1 H2 H3. apply create_file_inv in H1, H2, H3.
  destruct (artifact_calls _ _ _ _ _ _ _ H1) as (e1 & E1 & A1 & _).
  destruct (artifact_calls _ _ _ _ _ _ _ H2) as (e2 & E2 & A2 & _).
  destruct (artifact_calls _ _ _ _ _ _ _ H3) as (e3 & E3 & A3 & _).
  exists e1, e2, e3. split; [|done].
  by rewrite E3, E2, E1, <- !app_assoc.
Qed.

(** C3. In an elevated run whose directory step succeeds, the three
    artifacts are all attempted, config then pre-hook then post-hook, each
    from the world its predecessor left, whatever the earlier ones
    returned; the exit code is non-zero exactly when one of the three
    returned failure, it is 0 when all three succeeded, and it is 0 or 1. *)
Theorem artifacts_all_attempted_exit_code env w :
  elevated env ->
  (create_directory_if_not_exists env azure_dir (say banner w)).1 = Normal true ->
  let w1 := (create_directory_if_not_exists env azure_dir (say banner w)).2 in
  exists r1 w2 r2 w3 r3 w4 e1 e2 e3,
    create_file_with_content_and_permissions env config_dest CONFIG_CONTENT mode_config w1
      = (Normal r1, w2) /\
    create_file_with_content_and_permissions env pre_backup_dest PRE_BACKUP_CONTENT mode_script w2
      = (Normal r2, w3) /\
    create_file_with_content_and_permissions env post_backup_dest POST_BACKUP_CONTENT mode_script w3
      = (Normal r3, w4) /\
    calls (run env w).2 = calls w1 ++ e1 ++ e2 ++ e3 /\
    attempt config_dest CONFIG_CONTENT 384 e1 /\
    attempt pre_backup_dest PRE_BACKUP_CONTENT 448 e2 /\
    attempt post_backup_dest POST_BACKUP_CONTENT 448 e3 /\
    ((run env w).1 <> 0 <-> r1 = false \/ r2 = false \/ r3 = false) /\
    (r1 = true /\ r2 = true /\ r3 = true -> (run env w).1 = 0) /\
    ((run env w).1 = 0 \/ (run env w).1 = 1).
Proof.
  intros Hroot Hok w1.
  destruct (run_after_dir env w true (elevated_not_root _ Hroot) Hok)
    as [_ [[? _]|[_ Hrun]]]; [done|].
  destruct Hrun as (r1 & w2 & r2 & w3 & r3 & w4 & H1 & H2 & H3 & Hrun).
  destruct (three_attempts _ _ _ _ _ _ _ _ H1 H2 H3) as (e1 & e2 & e3 & Hc & A1 & A2 & A3).
  exists r1, w2, r2, w3, r3, w4, e1, e2, e3.
  repeat (split; [assumption|]).
  rewrite Hrun.
  destruct r1, r2, r3; cbn [andb fst snd say calls]; (split; [exact Hc|]);
    repeat (split; [assumption|]);
    (split; [split; [intros H; try done; auto | intros [H|[H|H]]; done] |]);
    (split; [intros (?&?&?); done | auto]).
Qed.

(** C4. In an elevated run whose directory step fails, the exit code is
    1 and the only file-system call made is the [os.makedirs]: no artifact
    is opened, written or chmod-ed. Every path other than [/etc] is as it
    was ([/etc] may have been made as a missing parent before the failure),
    and no file has appeared. *)
Theorem directory_failure_stops_run env w :
  elevated env ->
  (create_directory_if_not_exists env azure_dir (say banner w)).1 = Normal false ->
  let w' := (run env w).2 in
  (run env w).1 = 1 /\
  calls w' = calls w ++ [EvMakedirs azure_dir] /\
  (forall q, q <> p_etc -> fs w' !! q = fs w !! q) /\
  (fs w' !! p_etc = fs w !! p_etc \/
   (fs w !! p_etc = None /\ fs w' !! p_etc = Some (new_dir env))) /\
  (forall q c m, fs w' !! q = Some (File c m) -> fs w !! q = Some (File c m)).
Proof.
  intros Hroot Hok w'. subst w'.
  destruct (run_after_dir env w false (elevated_not_root _ Hroot) Hok)
    as [Hcalls [[_ Hrun]|[? _]]]; [|done].
  rewrite Hrun. cbn [fst snd].
  destruct (create_directory_if_not_exists env azure_dir (say banner w)) as [o w1] eqn:Hdir.
  cbn [fst snd] in *. subst o.
  destruct (dir_frame env _ _ _ Hdir) as [Hother Hdirs].
  destruct (dir_result env _ _ _ Hdir) as [_ Haz]. specialize (Haz eq_refl).
  cbn [say fs] in *.
  assert (Hframe : forall q, q <> p_etc -> fs w1 !! q = fs w !! q).
  { intros q Hq. destruct (decide (q = p_azure)) as [->|Hq']; [done|]. by apply Hother. }
  split; [done|]. split; [done|]. split; [done|]. split.
  - apply Hdirs. by left.
  - intros q c m Hf. destruct (decide (q = p_etc)) as [->|Hq].
    + destruct (Hdirs p_etc) as [He|[_ He]]; [by left| |].
      * by rewrite <- He.
      * rewrite He in Hf. discriminate Hf.
    + by rewrite <- Hframe.
Qed.

Lemma attempt_calls_same env f f' file content perms :
  f' !! posixpath.components file = f !! posixpath.components file ->
  isdir_at f' (parent (posixpath.components file)) =
    isdir_at f (parent (posixpath.components file)) ->
  attempt_calls env f' file content perms = attempt_calls env f file content perms.
Proof. intros H1 H2. unfold attempt_calls. by rewrite (open_mode_same env f f'). Qed.

(** C6.  The file-system calls of an elevated run are, in this order:
    the [os.makedirs] of [/etc/azure]; then, when the directory step
    returned [True], the attempt at the configuration with mode 0o600,
    the attempt at the pre-hook script with mode 0o700 and the attempt at
    the post-hook script with mode 0o700, and nothing else.  (When the
    directory step returned [False] the run stops there.)  Each attempt
    is [open], [write], [chmod] in that order, ending with the first call
    that fails. *)
Theorem operations_in_order env w :
  elevated env ->
  let d := create_directory_if_not_exists env azure_dir (say banner w) in
  exists ok,
    d.1 = Normal ok /\
    calls (run env w).2 =
      calls w ++ EvMakedirs azure_dir ::
        (if ok then
           attempt_calls env (fs d.2) config_dest CONFIG_CONTENT 384 ++
           attempt_calls env (fs d.2) pre_backup_dest PRE_BACKUP_CONTENT 448 ++
           attempt_calls env (fs d.2) post_backup_dest POST_BACKUP_CONTENT 448
         else []).
Proof.
  intros Hroot d. subst d.
  destruct (run_cases env w (elevated_not_root _ Hroot))
    as (ok & w1 & x & Hdir & Hcalls & _ & [[-> Hrun]|[-> Hrun]]);
    rewrite Hdir; cbn [fst snd].
  - exists false. split; [done|]. by rewrite Hrun.
  - exists true. split; [done|].
    destruct Hrun as (r1 & w2 & r2 & w3 & r3 & w4 & H1 & H2 & H3 & Hrun).
    apply create_file_inv in H1, H2, H3.
    pose proof (artifact_calls_exact _ _ _ _ _ _ _ H1) as C1.
    pose proof (artifact_calls_exact _ _ _ _ _ _ _ H2) as C2.
    pose proof (artifact_calls_exact _ _ _ _ _ _ _ H3) as C3.
    pose proof (artifact_frame _ _ _ _ _ _ _ p_azure H1 ltac:(done)) as A1.
    pose proof (artifact_frame _ _ _ _ _ _ _ p_azure H2 ltac:(done)) as A2.
    pose proof (artifact_frame _ _ _ _ _ _ _ p_pre H1 ltac:(done)) as P1.
    pose proof (artifact_frame _ _ _ _ _ _ _ p_post H1 ltac:(done)) as O1.
    pose proof (artifact_frame _ _ _ _ _ _ _ p_post H2 ltac:(done)) as O2.
    rewrite (attempt_calls_same env (fs w1) (fs w2)) in C2;
      [|exact P1|exact (isdir_at_same _ _ p_azure A1)].
    rewrite (attempt_calls_same env (fs w1) (fs w3)) in C3;
      [|exact (eq_trans O2 O1)|].
    2:{ change (parent (posixpath.components post_backup_dest)) with p_azure.
        by rewrite (isdir_at_same _ _ p_azure A2), (isdir_at_same _ _ p_azure A1). }
    assert (Hlast : calls (run env w).2 = calls w4).
    { rewrite Hrun. by destruct (r1 && r2 && r3). }
    rewrite Hlast, C3, C2, C1, Hcalls, <- !app_assoc. reflexivity.
Qed.

(** ** Symbolic links: where there is none on the way, nothing changes *)












(** C8.  One artifact.  The function always returns, and what it does is
    settled by the first call that fails.  When the file cannot be opened
    nothing changes.  When it has been opened the write comes next, and
    the [chmod] only after a write that succeeded.  When the write fails
    the file is left with what reached it.  When the [chmod] fails (the
    mode is no C [int], or the system refuses) the function returns
    [False] and the file stays on disk with the whole new content:
    nothing is rolled back.  When nothing fails the function returns
    [True] and the file holds the content with the requested permission
    bits.  Every failure prints the error line naming the file, and no
    other path is touched. *)
Theorem artifact_write_then_chmod env file content perms w :
  let p := posixpath.components file in
  exists b w' x,
    create_file_with_content_and_permissions env file content perms w = (Normal b, w') /\
    (open_mode env (fs w) p = None \/ fault env (SysOpen p) <> None ->
       b = false /\
       w' = World (fs w) (stdout w ++ [error_line file x]) (calls w ++ [EvOpen file])) /\
    (forall m, open_mode env (fs w) p = Some m -> fault env (SysOpen p) = None ->
       (fault env (SysWrite p) <> None ->
          b = false /\
          stdout w' = stdout w ++ [error_line file x] /\
          calls w' = calls w ++ [EvOpen file; EvWrite file content] /\
          exists m',
            fs w' = <[p := File (String.substring 0 (short_write env p) content) m']> (fs w)) /\
       (fault env (SysWrite p) = None ->
          (c_int perms = false \/ fault env (SysChmod p) <> None ->
             b = false /\
             stdout w' = stdout w ++ ["Created " +:+ file; error_line file x] /\
             calls w' = calls w ++ [EvOpen file; EvWrite file content; EvChmod file perms] /\
             exists m', fs w' = <[p := File content m']> (fs w)) /\
          (c_int perms = true -> fault env (SysChmod p) = None ->
             b = true /\
             w' = World
                    (<[p := File content (Z.land perms 4095)]> (fs w))
                    (stdout w ++ ["Created " +:+ file;
                                  "Set permissions " +:+ oct perms +:+ " on " +:+ file])
                    (calls w ++ [EvOpen file; EvWrite file content; EvChmod file perms])))).
Proof.
  intros p. subst p.
  destruct (create_file_spec env file content perms w) as (b & w' & Heq & Hout).
  destruct Hout as [x Ho|x m Hm Ho Hw|x m Hm Ho Hw Hc|m Hm Ho Hw Hi Hc].
  - do 2 eexists. exists x. split; [exact Heq|]. split; [done|].
    intros m Hm Hf. destruct Ho as [Ho|Ho]; congruence.
  - do 2 eexists. exists x. split; [exact Heq|]. split.
    { intros [H|H]; congruence. }
    intros m' Hm' _. split; [|intros H; congruence].
    intros _. cbn [fs stdout calls]. do 3 (split; [done|]). by eexists.
  - do 2 eexists. exists x. split; [exact Heq|]. split.
    { intros [H|H]; congruence. }
    intros m' Hm' _. split; [intros H; congruence|]. intros _. split.
    + intros _. cbn [fs stdout calls]. do 3 (split; [done|]). by eexists.
    + intros Hi Hc'. destruct Hc as [Hc|Hc]; congruence.
  - do 2 eexists. exists (SystemExit 0). split; [exact Heq|]. split.
    { intros [H|H]; congruence. }
    intros m' Hm' _. split; [intros H; congruence|]. intros _. split; [|done].
    intros [H|H]; congruence.
Qed.

(** C5. The configuration literal is a JSON text: it denotes an object
    with exactly the ten fields of [config_shape], the three locations and
    the plug-in name being strings, the two parameter lists arrays of two
    strings, the two retry counts and the timeout integers, and the two
    flags booleans. *)
Theorem config_is_valid_json :
  JSON.parse CONFIG_CONTENT =
    Some (JSON.JObject
      [ ("pluginName", JSON.JString "ScriptRunner");
        ("preScriptLocation", JSON.JString "/etc/azure/pre_backup.sh");
        ("postScriptLocation", JSON.JString "/etc/azure/post_backup.sh");
        ("preScriptParams", JSON.JArray [JSON.JString EmptyString; JSON.JString EmptyString]);
        ("postScriptParams", JSON.JArray [JSON.JString EmptyString; JSON.JString EmptyString]);
        ("preScriptNoOfRetries", JSON.JInt 0);
        ("postScriptNoOfRetries", JSON.JInt 0);
        ("timeoutInSeconds", JSON.JInt 30);
        ("continueBackupOnFailure", JSON.JBool true);
        ("fsFreezeEnabled", JSON.JBool true) ]) /\
  (JSON.conforms config_shape <$> JSON.parse CONFIG_CONTENT) = Some true.
Proof. split; vm_compute; reflexivity. Qed.

Lemma absent_below f p name :
  wf_fs f -> p <> [] -> f !! p = None -> f !! (p ++ [name]) = None.
Proof.
  intros Hwf Hp Hnone. destruct (f !! (p ++ [name])) as [n|] eqn:Hl; [|done].
  destruct (Hwf _ _ Hl) as [_ Hd]. unfold parent in Hd.
  rewrite removelast_last in Hd. unfold isdir_at in Hd.
  destruct p; [done|]. by rewrite Hnone in Hd.
Qed.

Lemma calm_unhindered env : calm env -> unhindered env.
Proof. intros H p _. by rewrite !H. Qed.

(** The three artifacts, when the operating system refuses none of their
    calls, in a directory that is there, on paths that are free or hold
    files. *)
Lemma three_artifacts_calm env w1 r1 w2 r2 w3 r3 w4 :
  unhindered env -> isdir_at (fs w1) p_azure = true ->
  (forall q md, q = p_config \/ q = p_pre \/ q = p_post -> fs w1 !! q <> Some (Dir md)) ->
  create_file_with_content_and_permissions env config_dest CONFIG_CONTENT mode_config w1
    = (Normal r1, w2) ->
  create_file_with_content_and_permissions env pre_backup_dest PRE_BACKUP_CONTENT mode_script w2
    = (Normal r2, w3) ->
  create_file_with_content_and_permissions env post_backup_dest POST_BACKUP_CONTENT mode_script w3
    = (Normal r3, w4) ->
  (r1 = true /\ r2 = true /\ r3 = true) /\
  fs w4 = <[p_post := File POST_BACKUP_CONTENT 448]>
            (<[p_pre := File PRE_BACKUP_CONTENT 448]>
               (<[p_config := File CONFIG_CONTENT 384]> (fs w1))) /\
  calls w4 = calls w1 ++ full_attempt config_dest CONFIG_CONTENT 384 ++
               full_attempt pre_backup_dest PRE_BACKUP_CONTENT 448 ++
               full_attempt post_backup_dest POST_BACKUP_CONTENT 448.
Proof.
  intros Hcalm Hdir Hnodir H1 H2 H3. apply create_file_inv in H1, H2, H3.
  assert (Hopen : forall f q, isdir_at f p_azure = true ->
            q = p_config \/ q = p_pre \/ q = p_post ->
            (forall md, f !! q <> Some (Dir md)) -> exists m, open_mode env f q = Some m).
  { intros f q Hd Hq Hnd. unfold open_mode.
    assert (Hpar : parent q = p_azure) by (destruct Hq as [->|[->| ->]]; reflexivity).
    assert (Hne : q <> []) by (destruct Hq as [->|[->| ->]]; discriminate).
    destruct q as [|c q]; [done|].
    destruct (f !! (c :: q)) as [[md|ct md]|] eqn:Hl.
    - by destruct (Hnd md).
    - eauto.
    - rewrite Hpar, Hd. eauto. }
  destruct (Hcalm p_config) as (Fo1 & Fw1 & Fc1); [by left|].
  destruct (Hcalm p_pre) as (Fo2 & Fw2 & Fc2); [by right; left|].
  destruct (Hcalm p_post) as (Fo3 & Fw3 & Fc3); [by right; right|].
  destruct (Hopen (fs w1) p_config Hdir) as [m1 Hm1]; [by left|by eauto|].
  assert (r1 = true) as ->
    by (eapply artifact_unhindered; [eassumption|exact Fo1|exact Fw1|exact Fc1|reflexivity|eassumption]).
  pose proof (artifact_success _ _ _ _ _ _ H1) as F1.
  destruct (artifact_calls _ _ _ _ _ _ _ H1) as (e1 & E1 & _ & X1). rewrite (X1 eq_refl) in E1.
  change (posixpath.components config_dest) with p_config in F1.
  change (Z.land mode_config 4095) with 384 in F1.
  destruct (Hopen (fs w2) p_pre) as [m2 Hm2]; [|by right; left| |].
  { rewrite F1. by rewrite isdir_at_insert_ne. }
  { intros md. rewrite F1, lookup_insert_ne by done. by apply Hnodir; right; left. }
  assert (r2 = true) as ->
    by (eapply artifact_unhindered; [eassumption|exact Fo2|exact Fw2|exact Fc2|reflexivity|eassumption]).
  pose proof (artifact_success _ _ _ _ _ _ H2) as F2.
  destruct (artifact_calls _ _ _ _ _ _ _ H2) as (e2 & E2 & _ & X2). rewrite (X2 eq_refl) in E2.
  change (posixpath.components pre_backup_dest) with p_pre in F2.
  change (Z.land mode_script 4095) with 448 in F2.
  destruct (Hopen (fs w3) p_post) as [m3 Hm3]; [|by right; right| |].
  { rewrite F2, F1. by rewrite !isdir_at_insert_ne. }
  { intros md. rewrite F2, F1, !lookup_insert_ne by done. by apply Hnodir; right; right. }
  assert (r3 = true) as ->
    by (eapply artifact_unhindered; [eassumption|exact Fo3|exact Fw3|exact Fc3|reflexivity|eassumption]).
  pose proof (artifact_success _ _ _ _ _ _ H3) as F3.
  destruct (artifact_calls _ _ _ _ _ _ _ H3) as (e3 & E3 & _ & X3). rewrite (X3 eq_refl) in E3.
  change (posixpath.components post_backup_dest) with p_post in F3.
  change (Z.land mode_script 4095) with 448 in F3.
  split; [done|]. split.
  - by rewrite F3, F2, F1.
  - rewrite E3, E2, E1, <- !app_assoc. reflexivity.
Qed.

(** C1 (with the proviso the code needs, see [fresh_install_can_fail]).
    Fresh install. A root run on a well-formed file system where
    [/etc/azure] does not exist ([/etc] being absent or a directory), with
    no failure of the operating system, exits with 0; it makes
    [/etc/azure] (and [/etc] when that is missing) and writes exactly the
    three files, each holding its literal from the source, with mode 0o600
    (384) on the configuration and 0o700 (448) on both scripts. The three
    paths were free before, and the calls made are one [os.makedirs] and
    three complete attempts. *)
Theorem fresh_install env w :
  elevated env -> calm env -> wf_fs (fs w) ->
  fs w !! p_azure = None ->
  (forall c m, fs w !! p_etc <> Some (File c m)) ->
  let base := match fs w !! p_etc with
              | Some _ => fs w
              | None => <[p_etc := new_dir env]> (fs w)
              end in
  (run env w).1 = 0 /\
  fs (run env w).2 =
    <[p_post := File POST_BACKUP_CONTENT 448]>
      (<[p_pre := File PRE_BACKUP_CONTENT 448]>
         (<[p_config := File CONFIG_CONTENT 384]>
            (<[p_azure := new_dir env]> base))) /\
  (fs w !! p_config = None /\ fs w !! p_pre = None /\ fs w !! p_post = None) /\
  calls (run env w).2 =
    calls w ++ EvMakedirs azure_dir ::
      full_attempt config_dest CONFIG_CONTENT 384 ++
      full_attempt pre_backup_dest PRE_BACKUP_CONTENT 448 ++
      full_attempt post_backup_dest POST_BACKUP_CONTENT 448.
Proof.
  intros Hroot Hcalm Hwf Haz Hetc base.
  assert (Hfree : forall name, fs w !! (p_azure ++ [name]) = None)
    by (intros; by apply absent_below).
  destruct (run_cases env w (elevated_not_root _ Hroot))
    as (ok & w1 & x & Hdir & Hcalls & _ & Hrun).
  destruct (dir_fresh env _ _ _ Hdir Hcalm Haz) as [Hnew Hold]. cbn [say fs] in *.
  assert (ok = true /\ fs w1 = <[p_azure := new_dir env]> base) as [-> Hw1].
  { subst base. destruct (fs w !! p_etc) as [[md|c m]|] eqn:He.
    - apply Hold. unfold isdir_at, p_etc in *. by rewrite He.
    - by destruct (Hetc c m).
    - by apply Hnew. }
  destruct Hrun as [[? _]|[_ Hrun]]; [done|].
  destruct Hrun as (r1 & w2 & r2 & w3 & r3 & w4 & H1 & H2 & H3 & Hrun).
  assert (Hbase : forall q, q = p_config \/ q = p_pre \/ q = p_post -> fs w1 !! q = None).
  { intros q Hq. rewrite Hw1, lookup_insert_ne by (destruct Hq as [->|[->| ->]]; done).
    subst base. destruct (fs w !! p_etc) eqn:He.
    - destruct Hq as [->|[->| ->]]; apply (Hfree _).
    - rewrite lookup_insert_ne by (destruct Hq as [->|[->| ->]]; done).
      destruct Hq as [->|[->| ->]]; apply (Hfree _). }
  assert (Hd1 : isdir_at (fs w1) p_azure = true).
  { rewrite Hw1. unfold isdir_at, p_azure. by rewrite lookup_insert_eq. }
  assert (Hnd : forall q md, q = p_config \/ q = p_pre \/ q = p_post ->
                  fs w1 !! q <> Some (Dir md)).
  { intros q md Hq. by rewrite Hbase. }
  destruct (three_artifacts_calm env _ _ _ _ _ _ _ (calm_unhindered _ Hcalm) Hd1 Hnd H1 H2 H3)
    as ((-> & -> & ->) & Hfs & Hc).
  rewrite Hrun. cbn [andb fst snd say fs calls].
  split; [done|]. split; [by rewrite Hfs, Hw1|].
  split; [repeat split; apply (Hfree _)|].
  rewrite Hc, Hcalls, <- app_assoc. reflexivity.
Qed.

Lemma run_exit_0 env w :
  elevated env -> wf_fs (fs w) -> (run env w).1 = 0 ->
  provisioned_state (fs (run env w).2).
Proof.
  intros Hroot Hwf Hcode.
  destruct (run_cases env w (elevated_not_root _ Hroot))
    as (ok & w1 & x & Hdir & _ & _ & [[-> Hrun]|[-> Hrun]]).
  { rewrite Hrun in Hcode. discriminate Hcode. }
  destruct Hrun as (r1 & w2 & r2 & w3 & r3 & w4 & H1 & H2 & H3 & Hrun).
  rewrite Hrun in *.
  destruct r1, r2, r3; cbn [andb fst snd say fs] in *; try discriminate Hcode.
  apply create_file_inv in H1, H2, H3.
  apply artifact_success in H1, H2, H3.
  change (posixpath.components config_dest) with p_config in H1.
  change (posixpath.components pre_backup_dest) with p_pre in H2.
  change (posixpath.components post_backup_dest) with p_post in H3.
  change (Z.land mode_config 4095) with 384 in H1.
  change (Z.land mode_script 4095) with 448 in H2, H3.
  destruct (dir_result env _ _ _ Hdir) as [Hd _]. specialize (Hd eq_refl).
  pose proof (dir_wf env _ _ _ Hdir Hwf) as Hwf1.
  assert (He : exists_at (fs w1) p_etc = true).
  { unfold isdir_at, p_azure in Hd.
    destruct (fs w1 !! ["etc"; "azure"]) as [n|] eqn:Hl; [|done].
    destruct (Hwf1 _ _ Hl) as [_ Hp]. cbn [parent removelast] in Hp.
    unfold isdir_at in Hp. unfold exists_at, p_etc.
    by destruct (fs w1 !! ["etc"]). }
  rewrite H3, H2, H1. unfold provisioned_state.
  split; [by rewrite !isdir_at_insert_ne by done|].
  split.
  { unfold exists_at, p_etc in *. by rewrite !lookup_insert_ne by done. }
  split; [by rewrite !lookup_insert_ne, lookup_insert_eq by done|].
  split; [by rewrite lookup_insert_ne, lookup_insert_eq by done|].
  by rewrite lookup_insert_eq.
Qed.

Lemma run_provisioned env w :
  not_root env = false -> unhindered env -> provisioned_state (fs w) ->
  (run env w).1 = 0 /\ fs (run env w).2 = fs w.
Proof.
  intros Hroot Hcalm (Hd & He & Fc & Fp & Fo).
  destruct (run_cases env w Hroot) as (ok & w1 & x & Hdir & _ & _ & Hrun).
  destruct (dir_existing env _ _ _ Hdir Hd He) as [-> Hw1]. cbn [say fs] in Hw1.
  destruct Hrun as [[? _]|[_ Hrun]]; [done|].
  destruct Hrun as (r1 & w2 & r2 & w3 & r3 & w4 & H1 & H2 & H3 & Hrun).
  assert (Hd1 : isdir_at (fs w1) p_azure = true) by (by rewrite Hw1).
  assert (Hnd : forall q md, q = p_config \/ q = p_pre \/ q = p_post ->
                  fs w1 !! q <> Some (Dir md)).
  { intros q md [->|[->| ->]]; rewrite Hw1; congruence. }
  destruct (three_artifacts_calm env _ _ _ _ _ _ _ Hcalm Hd1 Hnd H1 H2 H3)
    as ((-> & -> & ->) & Hfs & _).
  rewrite Hrun. cbn [andb fst snd say fs]. split; [done|].
  rewrite Hfs, Hw1.
  rewrite (insert_id _ p_config) by done.
  rewrite (insert_id _ p_pre) by done.
  by rewrite (insert_id _ p_post).
Qed.

Lemma run_exit_0_unhindered env w : (run env w).1 = 0 -> unhindered env.
Proof.
  intros Hcode. destruct (not_root env) eqn:Hnr.
  { rewrite (run_not_root env w Hnr) in Hcode. discriminate Hcode. }
  destruct (run_cases env w Hnr) as (ok & w1 & x & Hdir & _ & _ & [[-> Hrun]|[-> Hrun]]).
  { rewrite Hrun in Hcode. discriminate Hcode. }
  destruct Hrun as (r1 & w2 & r2 & w3 & r3 & w4 & H1 & H2 & H3 & Hrun).
  rewrite Hrun in Hcode.
  destruct r1, r2, r3; cbn [andb fst] in Hcode; try discriminate Hcode.
  apply create_file_inv, artifact_true_unhindered in H1, H2, H3.
  intros p [->|[->| ->]]; assumption.
Qed.

(** C7.  Idempotence.  After a root run that exited with 0 from a
    well-formed file system, a second run on the system as the first left
    it exits with 0 too and leaves the file system, hence the contents
    and modes of the three files and the directory, exactly as the first
    run left it. *)
Theorem rerun_idempotent env w :
  elevated env -> wf_fs (fs w) ->
  (run env w).1 = 0 ->
  (run env (run env w).2).1 = 0 /\
  fs (run env (run env w).2).2 = fs (run env w).2.
Proof.
  intros Hroot Hwf Hcode. apply run_provisioned.
  - by apply elevated_not_root.
  - by apply (run_exit_0_unhindered env w).
  - by apply run_exit_0.
Qed.

(** ** The theorems at concrete inputs *)

Lemma wf_fs_empty : wf_fs (fs w_empty).
Proof. intros p n H. cbn [fs w_empty] in H. by rewrite lookup_empty in H. Qed.

Lemma wf_fs_etc : wf_fs (fs w_etc).
Proof.
  intros p n H. cbn [fs w_etc] in H.
  apply lookup_singleton_Some in H as [<- _]. by split.
Qed.

Lemma calm_quiet uid : calm (quiet uid).
Proof. intros s. reflexivity. Qed.

Lemma fresh_install_witness :
  elevated env_root /\ calm env_root /\ wf_fs (fs w_etc) /\
  fs w_etc !! p_azure = None /\
  (forall c m, fs w_etc !! p_etc <> Some (File c m)) /\
  (run env_root w_etc).1 = 0 /\
  fs (run env_root w_etc).2 =
    <[p_post := File POST_BACKUP_CONTENT 448]>
      (<[p_pre := File PRE_BACKUP_CONTENT 448]>
         (<[p_config := File CONFIG_CONTENT 384]>
            (<[p_azure := new_dir env_root]> (fs w_etc)))).
Proof.
  assert (H1 : elevated env_root) by reflexivity.
  assert (H2 : calm env_root) by apply calm_quiet.
  assert (H3 : wf_fs (fs w_etc)) by apply wf_fs_etc.
  assert (H4 : fs w_etc !! p_azure = None) by (vm_compute; reflexivity).
  assert (H5 : forall c m, fs w_etc !! p_etc <> Some (File c m))
    by (intros c m E; vm_compute in E; discriminate E).
  repeat (split; [assumption|]).
  destruct (fresh_install env_root w_etc H1 H2 H3 H4 H5) as (Hcode & Hfs & _).
  split; [exact Hcode|exact Hfs].
Defined.

Lemma not_elevated_witness :
  geteuid env_user = Some 1000 /\ 1000 <> 0 /\
  exists w', run env_user w_etc = (1, w') /\
    fs w' = fs w_etc /\ calls w' = calls w_etc /\
    stdout w' = stdout w_etc ++ privilege_lines.
Proof.
  assert (H1 : geteuid env_user = Some 1000) by reflexivity.
  assert (H2 : 1000 <> 0) by lia.
  repeat (split; [assumption|]).
  exact (not_elevated_exit_1_no_change env_user w_etc 1000 H1 H2).
Defined.

Lemma artifacts_all_attempted_witness :
  elevated env_chmod_refused /\
  (create_directory_if_not_exists env_chmod_refused azure_dir (say banner w_etc)).1
    = Normal true /\
  ((run env_chmod_refused w_etc).1 = 0 \/ (run env_chmod_refused w_etc).1 = 1).
Proof.
  assert (H1 : elevated env_chmod_refused) by reflexivity.
  assert (H2 : (create_directory_if_not_exists env_chmod_refused azure_dir
                  (say banner w_etc)).1 = Normal true) by (vm_compute; reflexivity).
  destruct (artifacts_all_attempted_exit_code env_chmod_refused w_etc H1 H2)
    as (r1 & w2 & r2 & w3 & r3 & w4 & e1 & e2 & e3 & _ & _ & _ & _ & _ & _ & _ & _ & _ & H).
  split; [exact H1|]. split; [exact H2|]. exact H.
Defined.

Lemma directory_failure_witness :
  elevated env_root /\
  (create_directory_if_not_exists env_root azure_dir (say banner w_blocked)).1
    = Normal false /\
  (run env_root w_blocked).1 = 1 /\
  calls (run env_root w_blocked).2 = calls w_blocked ++ [EvMakedirs azure_dir].
Proof.
  assert (H1 : elevated env_root) by reflexivity.
  assert (H2 : (create_directory_if_not_exists env_root azure_dir
                  (say banner w_blocked)).1 = Normal false) by (vm_compute; reflexivity).
  repeat (split; [assumption|]).
  destruct (directory_failure_stops_run env_root w_blocked H1 H2) as (Hcode & Hcalls & _).
  split; [exact Hcode|exact Hcalls].
Defined.


Lemma operations_in_order_witness :
  elevated env_chmod_refused /\
  exists ok,
    (create_directory_if_not_exists env_chmod_refused azure_dir (say banner w_etc)).1
      = Normal ok /\
    calls (run env_chmod_refused w_etc).2 =
      calls w_etc ++ EvMakedirs azure_dir ::
        (if ok then
           attempt_calls env_chmod_refused
             (fs (create_directory_if_not_exists env_chmod_refused azure_dir
                    (say banner w_etc)).2)
             config_dest CONFIG_CONTENT 384 ++
           attempt_calls env_chmod_refused
             (fs (create_directory_if_not_exists env_chmod_refused azure_dir
                    (say banner w_etc)).2)
             pre_backup_dest PRE_BACKUP_CONTENT 448 ++
           attempt_calls env_chmod_refused
             (fs (create_directory_if_not_exists env_chmod_refused azure_dir
                    (say banner w_etc)).2)
             post_backup_dest POST_BACKUP_CONTENT 448
         else []).
Proof.
  assert (H1 : elevated env_chmod_refused) by reflexivity.
  split; [assumption|].
  exact (operations_in_order env_chmod_refused w_etc H1).
Defined.

Lemma rerun_idempotent_witness :
  elevated env_root /\ wf_fs (fs w_empty) /\
  (run env_root w_empty).1 = 0 /\
  (run env_root (run env_root w_empty).2).1 = 0 /\
  fs (run env_root (run env_root w_empty).2).2 = fs (run env_root w_empty).2.
Proof.
  assert (H1 : elevated env_root) by reflexivity.
  assert (H2 : wf_fs (fs w_empty)) by apply wf_fs_empty.
  assert (H3 : (run env_root w_empty).1 = 0) by (vm_compute; reflexivity).
  do 3 (split; [assumption|]).
  exact (rerun_idempotent env_root w_empty H1 H2 H3).
Defined.


(** ** Where the operating system does not cooperate *)

(** C1, as stated for every root run on a system without [/etc/azure],
    fails when the operating system refuses the directory: on a read-only
    file system, and where [/etc] is a regular file, the run exits with 1,
    [/etc/azure] is not made and none of the three files is written. *)
Lemma fresh_install_can_fail :
  (elevated env_read_only /\ wf_fs (fs w_etc) /\ fs w_etc !! p_azure = None /\
   (run env_read_only w_etc).1 = 1 /\
   fs (run env_read_only w_etc).2 = fs w_etc /\
   fs (run env_read_only w_etc).2 !! p_azure = None /\
   fs (run env_read_only w_etc).2 !! p_config = None) /\
  (elevated env_root /\ calm env_root /\ fs w_etc_file !! p_azure = None /\
   (run env_root w_etc_file).1 = 1 /\
   fs (run env_root w_etc_file).2 = fs w_etc_file /\
   fs (run env_root w_etc_file).2 !! p_azure = None /\
   fs (run env_root w_etc_file).2 !! p_config = None).
Proof.
  split.
  - split; [reflexivity|]. split; [apply wf_fs_etc|].
    split; [|split; [|split; [|split]]]; vm_compute; reflexivity.
  - split; [reflexivity|]. split; [apply calm_quiet|].
    split; [|split; [|split; [|split]]]; vm_compute; reflexivity.
Qed.


(** * Further properties of the three functions *)

(** ** The directory step on any path *)

Lemma makedirs_from_cons env tail rhead :
  makedirs_from env (tail :: rhead) =
    ((f ← get_fs;
      if exists_at f (rev rhead) then mret tt
      else try_except (makedirs_from env rhead) is_FileExistsError (fun _ => mret tt));;
     mkdir_exist_ok env (rev (tail :: rhead))).
Proof. reflexivity. Qed.

Lemma makedirs_from_nil env : makedirs_from env [] = (mret tt;; mkdir_exist_ok env []).
Proof. reflexivity. Qed.

Lemma only_adds_dirs_refl env p f : only_adds_dirs env p f f.
Proof. intros q. by left. Qed.

Lemma only_adds_dirs_trans env p p' f1 f2 f3 :
  p `prefix_of` p' ->
  only_adds_dirs env p f1 f2 -> only_adds_dirs env p' f2 f3 -> only_adds_dirs env p' f1 f3.
Proof.
  intros Hpre H12 H23 q.
  destruct (H23 q) as [E23|(N2 & S3 & Hq & Hp)]; destruct (H12 q) as [E12|(N1 & S2 & Hq' & Hp')].
  - left. congruence.
  - right. rewrite E23. repeat split; try done. by etrans.
  - right. rewrite <- E12. done.
  - congruence.
Qed.

(** The last step, case by case. *)
Lemma mkdir_exist_ok_spec env name w :
  exists o w', mkdir_exist_ok env name w = (o, w') /\
    stdout w' = stdout w /\ calls w' = calls w /\
    ( (fs w' = fs w /\
       match o with
       | Normal _ => isdir_at (fs w) name = true
       | Raised x => is_OSError x = true /\ isdir_at (fs w) name = false /\
                     (fs w !! name = None -> isdir_at (fs w) (parent name) = true ->
                      fault env (SysMkdir name) <> None)
       end)
    \/ (o = Normal tt /\ name <> [] /\ fs w !! name = None /\
        isdir_at (fs w) (parent name) = true /\
        fs w' = <[name := new_dir env]> (fs w)) ).
Proof.
  destruct w as [f out cs]. unfold mkdir_exist_ok, mkdir. py_simpl.
  destruct name as [|c name'] eqn:Hname.
  { eexists _, _. split; [reflexivity|]. cbn [fs stdout calls]. split; [done|]. split; [done|].
    left. by split. }
  rewrite <- Hname in *.
  assert (Hne : name <> []) by (by rewrite Hname).
  assert (Hisdir : isdir_at f name =
            match f !! name with Some (Dir _) => true | _ => false end)
    by (by rewrite Hname).
  clear Hname.
  unfold no_parent.
  destruct (f !! name) as [[md|ct md]|] eqn:Hl.
  - cbn [is_OSError fs]. rewrite ?Hisdir, ?Hl.
    eexists _, _. split; [reflexivity|]. cbn [fs stdout calls]. do 2 (split; [done|]).
    left. by split.
  - cbn [is_OSError fs]. rewrite ?Hisdir, ?Hl.
    eexists _, _. split; [reflexivity|]. cbn [fs stdout calls]. do 2 (split; [done|]).
    left. split; [done|]. split; [done|]. split; [done|]. done.
  - destruct (isdir_at f (parent name)) eqn:Hd.
    + destruct (fault env (SysMkdir name)) as [e|] eqn:Hf.
      * cbn [is_OSError fs]. rewrite ?Hisdir, ?Hl.
        eexists _, _. split; [reflexivity|]. cbn [fs stdout calls]. do 2 (split; [done|]).
        left. split; [done|]. split; [done|]. split; [done|]. done.
      * eexists _, _. split; [reflexivity|]. cbn [fs stdout calls]. do 2 (split; [done|]).
        right. done.
    + cbn [is_OSError fs]. rewrite ?Hisdir, ?Hl.
      eexists _, _. split; [reflexivity|]. cbn [fs stdout calls]. do 2 (split; [done|]).
      left. split; [done|]. split; [done|]. split; [done|]. done.
Qed.

Lemma bind_split {A B} (m : Py A) (k : A -> Py B) w :
  (m ≫= k) w =
    match m w with
    | (Normal a, w') => k a w'
    | (Raised x, w') => (Raised x, w')
    end.
Proof. reflexivity. Qed.

(** [os.makedirs] on a resolved path: it only adds directories along the
    path, leaves standard output and the call log alone, raises nothing
    but [OSError], and when it returns the directory is there. *)
Lemma makedirs_from_spec env rname : forall w,
  exists o w', makedirs_from env rname w = (o, w') /\
    stdout w' = stdout w /\ calls w' = calls w /\
    only_adds_dirs env (rev rname) (fs w) (fs w') /\
    match o with
    | Normal _ => isdir_at (fs w') (rev rname) = true
    | Raised x => is_OSError x = true
    end.
Proof.
  induction rname as [|tail rhead IH]; intros w.
  - rewrite makedirs_from_nil, bind_ret.
    destruct (mkdir_exist_ok_spec env [] w) as (o & w' & E & Hout & Hcalls & H).
    exists o, w'. do 3 (split; [done|]).
    destruct H as [[Hfs Ho]|(_ & Hne & _)]; [|done].
    rewrite Hfs. split; [apply only_adds_dirs_refl|].
    destruct o; [done|]. by destruct Ho.
  - rewrite makedirs_from_cons.
    assert (Hhead : exists o1 w1,
      (f ← get_fs;
       if exists_at f (rev rhead) then mret tt
       else try_except (makedirs_from env rhead) is_FileExistsError (fun _ => mret tt)) w
        = (o1, w1) /\
      stdout w1 = stdout w /\ calls w1 = calls w /\
      only_adds_dirs env (rev rhead) (fs w) (fs w1) /\
      (forall x, o1 = Raised x -> is_OSError x = true)).
    { unfold get_fs. rewrite bind_split.
      destruct (exists_at (fs w) (rev rhead)).
      - exists (Normal tt), w. split; [reflexivity|]. do 2 (split; [done|]).
        split; [apply only_adds_dirs_refl|]. discriminate.
      - destruct (IH w) as (o & w1 & E & Hout & Hcalls & Hframe & Ho).
        unfold try_except. rewrite E. destruct o as [[]|x].
        + exists (Normal tt), w1. split; [reflexivity|]. do 3 (split; [done|]). discriminate.
        + destruct (is_FileExistsError x).
          * exists (Normal tt), w1. split; [reflexivity|]. do 3 (split; [done|]). discriminate.
          * exists (Raised x), w1. split; [reflexivity|]. do 3 (split; [done|]).
            by intros ? [= <-]. }
    destruct Hhead as (o1 & w1 & E1 & Hout1 & Hcalls1 & Hframe1 & Ho1).
    assert (Hpre : rev rhead `prefix_of` rev (tail :: rhead)).
    { cbn [rev]. by exists [tail]. }
    rewrite bind_split, E1. destruct o1 as [[]|x].
    + destruct (mkdir_exist_ok_spec env (rev (tail :: rhead)) w1)
        as (o & w' & E & Hout & Hcalls & H).
      exists o, w'. split; [exact E|].
      split; [congruence|]. split; [congruence|].
      destruct H as [[Hfs Ho]|(-> & Hne & Hnone & Hd & Hfs)].
      * rewrite Hfs. split.
        { eapply only_adds_dirs_trans; [exact Hpre|exact Hframe1|apply only_adds_dirs_refl]. }
        destruct o; [done|]. by destruct Ho.
      * split.
        { eapply only_adds_dirs_trans; [exact Hpre|exact Hframe1|].
          intros q. rewrite Hfs. destruct (decide (rev (tail :: rhead) = q)) as [<-|Hq].
          - right. rewrite lookup_insert_eq. done.
          - left. by rewrite lookup_insert_ne. }
        rewrite Hfs. unfold isdir_at. destruct (rev (tail :: rhead)); [done|].
        by rewrite lookup_insert_eq.
    + exists (Raised x), w1. split; [reflexivity|]. do 2 (split; [done|]).
      split; [|by apply Ho1].
      eapply only_adds_dirs_trans; [exact Hpre|exact Hframe1|apply only_adds_dirs_refl].
Qed.

(** The directory step on any path name. *)
Lemma create_directory_spec env directory w :
  exists b w',
    create_directory_if_not_exists env directory w = (Normal b, w') /\
    calls w' = calls w ++ [EvMakedirs directory] /\
    only_adds_dirs env (posixpath.components directory) (fs w) (fs w') /\
    (if b
     then stdout w' = stdout w ++ [created_line directory] /\
          isdir_at (fs w') (posixpath.components directory) = true
     else exists x, stdout w' = stdout w ++ [dir_error_line directory x]).
Proof.
  unfold create_directory_if_not_exists, os_makedirs.
  set (w0 := World (fs w) (stdout w) (calls w ++ [EvMakedirs directory])).
  destruct (makedirs_from_spec env (rev (posixpath.components directory)) w0)
    as (o & w1 & E & Hout & Hcalls & Hframe & Ho).
  rewrite rev_involutive in Hframe, Ho.
  rewrite bind_split. unfold try_except.
  change (record (EvMakedirs directory) w) with (Normal tt, w0).
  rewrite !bind_split. cbv beta iota.
  change (record (EvMakedirs directory) w) with (Normal tt, w0). cbv beta iota.
  rewrite E. destruct o as [[]|x].
  - rewrite bind_print. cbv beta iota. unfold mret, Py_ret.
    exists true, (say [created_line directory] w1). split; [reflexivity|].
    cbn [say fs stdout calls]. rewrite Hout, Hcalls. subst w0. cbn [fs stdout calls].
    done.
  - assert (is_Exception x = true) as -> by (by destruct x).
    rewrite bind_print. cbv beta iota. unfold mret, Py_ret.
    exists false, (say [dir_error_line directory x] w1). split; [reflexivity|].
    cbn [say fs stdout calls]. rewrite Hout, Hcalls. subst w0. cbn [fs stdout calls].
    split; [done|]. split; [done|]. by exists x.
Qed.







(** X1. The directory step, for any canonical path name, turns every
    error of [os.makedirs] into a result (standard output being writable,
    as throughout): it returns a boolean, having made exactly one
    [os.makedirs] call and printed exactly one line, the success line or
    an error line naming the directory; when it returns [True] the path
    is a directory. *)
Theorem create_directory_catches_makedirs_errors env directory w :
  canonical directory ->
  exists b w',
    create_directory_if_not_exists env directory w = (Normal b, w') /\
    calls w' = calls w ++ [EvMakedirs directory] /\
    ( (b = true /\ stdout w' = stdout w ++ [created_line directory] /\
       isdir_at (fs w') (posixpath.components directory) = true)
    \/ (b = false /\ exists x, stdout w' = stdout w ++ [dir_error_line directory x]) ).
Proof.
  intros _.
  destruct (create_directory_spec env directory w) as (b & w' & E & Hc & _ & H).
  exists b, w'. split; [exact E|]. split; [exact Hc|].
  destruct b; [left|right]; by split.
Qed.





(** ** The artifact function on any path *)

Ltac art_unfold :=
  unfold create_file_with_content_and_permissions, open_w, write_close, os_chmod;
  py_simpl.


(** X8. The artifact function makes no directory: where the file is not
    there and its parent is not a directory, it returns [False], makes no
    call but the [open], changes nothing and prints one error line. *)
Theorem create_file_needs_parent_directory env file content perms w :
  canonical file ->
  fs w !! posixpath.components file = None ->
  isdir_at (fs w) (parent (posixpath.components file)) = false ->
  exists x,
    create_file_with_content_and_permissions env file content perms w =
      (Normal false,
       World (fs w) (stdout w ++ [error_line file x]) (calls w ++ [EvOpen file])).
Proof.
  intros _ Hnone Hd. destruct w as [f out cs]. art_unfold.
  destruct (posixpath.components file) as [|a l] eqn:Hp; [done|].
  rewrite Hnone, Hd. cbn [is_Exception fs stdout calls]. by eexists.
Qed.


(** ** Whole runs *)




Lemma last_app_nonempty {A} (l1 l2 : list A) x : last l2 = Some x -> last (l1 ++ l2) = Some x.
Proof. intros H. by rewrite last_app, H. Qed.

(** X13. The output of a run is appended to what was printed before,
    and the exit status is 0 exactly when the last line printed is the
    closing line of the success report. *)
Theorem exit_status_shown_on_last_line env w :
  exists lines,
    stdout (run env w).2 = stdout w ++ lines /\
    ((run env w).1 = 0 <-> last lines = Some configured_line).
Proof.
  destruct (not_root env) eqn:Hnr.
  { rewrite (run_not_root env w Hnr). exists privilege_lines. split; [reflexivity|].
    cbn [fst]. split; [discriminate|]. intros H. vm_compute in H. discriminate H. }
  destruct (run_cases env w Hnr) as (ok & w1 & x & Hdir & _ & Hout & [[-> Hrun]|[-> Hrun]]).
  { rewrite Hrun. cbn [fst snd]. exists (banner ++ [dir_line false x]).
    split; [exact Hout|]. split; [discriminate|].
    rewrite last_snoc. intros H. vm_compute in H. discriminate H. }
  destruct Hrun as (r1 & w2 & r2 & w3 & r3 & w4 & H1 & H2 & H3 & Hrun).
  apply create_file_inv in H1, H2, H3.
  destruct (artifact_stdout _ _ _ _ _ _ _ H1) as (l1 & E1 & _).
  destruct (artifact_stdout _ _ _ _ _ _ _ H2) as (l2 & E2 & _).
  destruct (artifact_stdout _ _ _ _ _ _ _ H3) as (l3 & E3 & _).
  rewrite Hrun. destruct (r1 && r2 && r3); cbn [fst snd say stdout].
  - exists ((banner ++ [dir_line true x] ++ l1 ++ l2 ++ l3) ++ success_lines).
    split; [rewrite E3, E2, E1, Hout, <- !app_assoc; reflexivity|].
    split; [|done]. intros _. by apply last_app_nonempty.
  - exists ((banner ++ [dir_line true x] ++ l1 ++ l2 ++ l3) ++ failure_lines).
    split; [rewrite E3, E2, E1, Hout, <- !app_assoc; reflexivity|].
    split; [discriminate|].
    rewrite (last_app_nonempty _ failure_lines _ eq_refl).
    intros H. vm_compute in H. discriminate H.
Qed.




Lemma keeps_refl f : keeps_paths_and_dirs f f.
Proof. by split. Qed.

Lemma keeps_trans f1 f2 f3 :
  keeps_paths_and_dirs f1 f2 -> keeps_paths_and_dirs f2 f3 -> keeps_paths_and_dirs f1 f3.
Proof. intros [A1 B1] [A2 B2]. split; eauto. Qed.

Lemma keeps_insert_file f p c m :
  (forall md, f !! p <> Some (Dir md)) -> keeps_paths_and_dirs f (<[p := File c m]> f).
Proof.
  intros Hnd. split.
  - intros q Hq. destruct (decide (p = q)) as [<-|Hne].
    + rewrite lookup_insert_eq. by eexists.
    + by rewrite lookup_insert_ne.
  - intros q md Hq. destruct (decide (p = q)) as [<-|Hne].
    + by destruct (Hnd md).
    + by rewrite lookup_insert_ne.
Qed.

Lemma artifact_keeps env file content perms w b w' :
  artifact_outcome env file content perms w b w' -> keeps_paths_and_dirs (fs w) (fs w').
Proof.
  intros H. destruct H; cbn [fs]; try apply keeps_refl;
    apply keeps_insert_file; intros md; eapply open_mode_not_dir; eassumption.
Qed.

Lemma dir_keeps env w b w' :
  create_directory_if_not_exists env azure_dir w = (Normal b, w') ->
  keeps_paths_and_dirs (fs w) (fs w').
Proof.
  intros Hdir. destruct (dir_frame env _ _ _ Hdir) as [Hother Hdirs]. split.
  - intros q Hq.
    destruct (decide (q = p_etc)) as [He|He]; [|destruct (decide (q = p_azure)) as [Ha|Ha]].
    + destruct (Hdirs q) as [E|[E _]]; [by left|by rewrite E|]. rewrite E in Hq. by destruct Hq.
    + destruct (Hdirs q) as [E|[E _]]; [by right|by rewrite E|]. rewrite E in Hq. by destruct Hq.
    + by rewrite Hother.
  - intros q md Hq.
    destruct (decide (q = p_etc)) as [He|He]; [|destruct (decide (q = p_azure)) as [Ha|Ha]].
    + destruct (Hdirs q) as [E|[E _]]; [by left|by rewrite E|]. congruence.
    + destruct (Hdirs q) as [E|[E _]]; [by right|by rewrite E|]. congruence.
    + by rewrite Hother.
Qed.

(** X17. No run removes a path, and no run changes a directory that is
    there (its mode included). *)
Theorem run_never_removes_and_never_touches_directories env w :
  (forall q, is_Some (fs w !! q) -> is_Some (fs (run env w).2 !! q)) /\
  (forall q md, fs w !! q = Some (Dir md) -> fs (run env w).2 !! q = Some (Dir md)).
Proof.
  change (keeps_paths_and_dirs (fs w) (fs (run env w).2)).
  destruct (not_root env) eqn:Hnr.
  { rewrite (run_not_root env w Hnr). apply keeps_refl. }
  destruct (run_cases env w Hnr) as (ok & w1 & x & Hdir & _ & _ & Hrun).
  pose proof (dir_keeps env _ _ _ Hdir) as K0. cbn [say fs] in K0.
  destruct Hrun as [[-> Hrun]|[-> Hrun]].
  { by rewrite Hrun. }
  destruct Hrun as (r1 & w2 & r2 & w3 & r3 & w4 & H1 & H2 & H3 & Hrun).
  apply create_file_inv in H1, H2, H3.
  apply artifact_keeps in H1, H2, H3.
  assert (K : keeps_paths_and_dirs (fs w) (fs w4)).
  { eapply keeps_trans; [exact K0|]. eapply keeps_trans; [exact H1|].
    eapply keeps_trans; [exact H2|exact H3]. }
  rewrite Hrun. by destruct (r1 && r2 && r3).
Qed.

(** ** The further properties at concrete inputs *)

Lemma canonical_azure_dir : canonical azure_dir.
Proof.
  split; [reflexivity|]. split; intros [H|[H|[]]]; discriminate H.
Qed.

Lemma canonical_pre_backup_dest : canonical pre_backup_dest.
Proof.
  split; [reflexivity|]. split; intros [H|[H|[H|[]]]]; discriminate H.
Qed.




Lemma create_directory_catches_makedirs_errors_witness :
  canonical azure_dir /\
  exists b w',
    create_directory_if_not_exists env_read_only azure_dir w_etc = (Normal b, w') /\
    calls w' = calls w_etc ++ [EvMakedirs azure_dir].
Proof.
  split; [exact canonical_azure_dir|].
  destruct (create_directory_catches_makedirs_errors env_read_only azure_dir w_etc canonical_azure_dir)
    as (b & w' & E & Hc & _).
  exists b, w'. split; [exact E|exact Hc].
Defined.



Lemma create_file_needs_parent_directory_witness :
  canonical pre_backup_dest /\
  fs w_etc !! posixpath.components pre_backup_dest = None /\
  isdir_at (fs w_etc) (parent (posixpath.components pre_backup_dest)) = false /\
  (create_file_with_content_and_permissions env_root pre_backup_dest
     PRE_BACKUP_CONTENT 448 w_etc).1 = Normal false.
Proof.
  assert (H1 : fs w_etc !! posixpath.components pre_backup_dest = None)
    by (vm_compute; reflexivity).
  assert (H2 : isdir_at (fs w_etc) (parent (posixpath.components pre_backup_dest)) = false)
    by (vm_compute; reflexivity).
  split; [exact canonical_pre_backup_dest|]. split; [exact H1|]. split; [exact H2|].
  destruct (create_file_needs_parent_directory env_root pre_backup_dest
              PRE_BACKUP_CONTENT 448 w_etc canonical_pre_backup_dest H1 H2) as [x E].
  by rewrite E.
Defined.








